(** * Trade aggregation and ranking engine of [trade_analyzer.py]

    A shallow embedding of [StockTradeAnalyzer.csv2df], [df2clean],
    [df2calculate] and the three [top20_*] views, with the properties of
    the engine stated and proved over it; then the formatting tools, the
    drawing commands of [create_visualization] and the engine calls and
    filters of [app.py].

    Modelling conventions.
    - A pandas float64 value is an exact rational ([Q]): sums, products and
      quotients are the mathematical ones and [round] is round-half-to-even
      on the exact value.  Binary rounding error, infinities and NaN
      produced by overflow are outside the model.
    - A share count is an integer ([Z]); the int64 container of the frame
      is assumed not to overflow.
    - A Python exception is a value [Raise e] of the [result] type, so
      "does not raise" is a statement [f x = Ok v].
    - A frame is the list of its rows in index order; the aggregate frame
      also records which column labels it carries, since pandas looks
      columns up by label and raises [KeyError] for an absent one. *)

From Stdlib Require Import List ZArith QArith Qround Lqa Lia Bool.
From Stdlib Require Import String Ascii Permutation Sorted Morphisms.
Import ListNotations.

Local Open Scope Z_scope.

(** ** Python exceptions as results *)

Inductive exn : Type :=
| ZeroDivisionError
| IndexError
| KeyError
| ValueError
| OverflowError.

Inductive result (A : Type) : Type :=
| Ok (a : A)
| Raise (e : exn).

Arguments Ok {A} a.
Arguments Raise {A} e.

Definition bind {A B : Type} (c : result A) (k : A -> result B) : result B :=
  match c with
  | Ok a => k a
  | Raise e => Raise e
  end.

Notation "x <- c ;; k" := (bind c (fun x => k))
  (at level 61, c at next level, right associativity).
Notation "' p <- c ;; k" := (bind c (fun x => let p := x in k))
  (at level 61, p pattern, c at next level, right associativity).

Fixpoint mapM {A B : Type} (f : A -> result B) (l : list A) : result (list B) :=
  match l with
  | [] => Ok []
  | a :: l' => b <- f a ;; bs <- mapM f l' ;; Ok (b :: bs)
  end.

(** ** Python and numpy numeric primitives *)

(** [x / y] on numbers: true division, [ZeroDivisionError] on a zero
    denominator. *)
Definition truediv (x y : Q) : result Q :=
  if Qeq_bool y 0 then Raise ZeroDivisionError else Ok (x / y)%Q.

(** Nearest integer, ties to the even one. *)
Definition round_half_even (x : Q) : Z :=
  let f := Qfloor x in
  match (x - inject_Z f ?= 1 # 2)%Q with
  | Lt => f
  | Gt => f + 1
  | Eq => if Z.even f then f else f + 1
  end.

Definition pow10 (ndigits : nat) : positive :=
  Nat.iter ndigits (Pos.mul 10) 1%positive.

(** [round(x, ndigits)] with [ndigits >= 0]. *)
Definition py_round (x : Q) (ndigits : nat) : Q :=
  Qmake (round_half_even (x * inject_Z (Zpos (pow10 ndigits)))) (pow10 ndigits).

(** [int(x)] on a float: truncation towards zero. *)
Definition py_int (x : Q) : Z :=
  if Qle_bool 0 x then Qfloor x else Qceiling x.

(** [abs(n)], [min(a, b)] on ints. *)
Definition py_abs (n : Z) : Z := Z.abs n.
Definition py_min (a b : Z) : Z := if b <? a then b else a.

(** [Series.sum()] of an int column and of a float column. *)
Definition Zsum (l : list Z) : Z := fold_right Z.add 0 l.
Definition Qsum (l : list Q) : Q := fold_right Qplus 0%Q l.

(** ** Normalized records: the frame returned by [df2clean] *)

Record TradeRecord : Type := mkTrade {
  broker : string;       (* 券商 *)
  price : Q;             (* 價格 *)
  buy_shares : Z;        (* 買進股數 *)
  sell_shares : Z        (* 賣出股數 *)
}.

Definition DataFrame := list TradeRecord.

(** [Series.unique()]: the distinct values in order of first appearance. *)
Fixpoint unique (l : list string) : list string :=
  match l with
  | [] => []
  | x :: l' => x :: filter (fun y => negb (String.eqb y x)) (unique l')
  end.

(** ** [df2calculate] *)

(** The local variables of one iteration of the loop over brokers. *)
Record BrokerCalc : Type := mkCalc {
  total_buy_shares : Z;
  total_buy_amount : Q;
  avg_buy_price : Q;
  total_sell_shares : Z;
  total_sell_amount : Q;
  avg_sell_price : Q;
  day_trade_volume : Z;
  profit_loss : Q;
  net_shares : Z;
  net_buy_amount : Q;
  net_sell_amount : Q
}.

(** One side of the book: the rows with volume on that side, the total and
    the rounded share-weighted mean price (source lines 79-86 and 89-96). *)
Definition side_data (shares : TradeRecord -> Z) (broker_data : DataFrame) : DataFrame :=
  filter (fun r => 0 <? shares r) broker_data.

Definition side_total (shares : TradeRecord -> Z) (broker_data : DataFrame) : Z :=
  let data := side_data shares broker_data in
  match data with
  | [] => 0
  | _ => Zsum (map shares data)
  end.

Definition side_amount (shares : TradeRecord -> Z) (broker_data : DataFrame) : Q :=
  Qsum (map (fun r => price r * inject_Z (shares r))%Q (side_data shares broker_data)).

Definition side_stats (shares : TradeRecord -> Z) (broker_data : DataFrame)
  : result (Z * Q * Q) :=
  let total_shares := side_total shares broker_data in
  if 0 <? total_shares then
    let total_amount := side_amount shares broker_data in
    q <- truediv total_amount (inject_Z total_shares) ;;
    Ok (total_shares, total_amount, py_round q 2)
  else
    Ok (total_shares, 0%Q, 0%Q).

Definition Qtruthy (x : Q) : bool := negb (Qeq_bool x 0).

Definition broker_calc (df : DataFrame) (b : string) : result BrokerCalc :=
  let broker_data := filter (fun r => String.eqb (broker r) b) df in
  '(total_buy_shares, total_buy_amount, avg_buy_price) <-
     side_stats buy_shares broker_data ;;
  '(total_sell_shares, total_sell_amount, avg_sell_price) <-
     side_stats sell_shares broker_data ;;
  let day_trade_volume := py_min total_buy_shares total_sell_shares in
  let profit_loss :=
    if day_trade_volume =? 0 then 0%Q
    else ((avg_sell_price - avg_buy_price) * 1000)%Q in
  let net_shares := total_buy_shares - total_sell_shares in
  '(net_buy_amount, net_sell_amount) <-
     (if 0 <? net_shares then
        a <- (if Qtruthy avg_buy_price
              then truediv (inject_Z net_shares * avg_buy_price) 10000
              else Ok 0%Q) ;;
        Ok (a, 0%Q)
      else
        a <- (if Qtruthy avg_sell_price
              then truediv (inject_Z (py_abs net_shares) * avg_sell_price) 10000
              else Ok 0%Q) ;;
        Ok (0%Q, a)) ;;
  Ok (mkCalc total_buy_shares total_buy_amount avg_buy_price
             total_sell_shares total_sell_amount avg_sell_price
             day_trade_volume profit_loss net_shares
             net_buy_amount net_sell_amount).

(** The column labels of the aggregate frame. *)
Inductive Column : Type :=
| col_broker            (* 券商 *)
| col_buy_lots          (* 買入(張) *)
| col_buy_price         (* 買入價 *)
| col_sell_lots         (* 賣出(張) *)
| col_sell_price        (* 賣出價 *)
| col_day_trade_lots    (* 當沖量(張) *)
| col_total_buy_amount  (* 總買進金額(萬) *)
| col_total_sell_amount (* 總賣出金額(萬) *)
| col_net_buy_lots      (* 淨買入(張) *)
| col_net_sell_lots     (* 淨賣出(張) *)
| col_net_buy_value     (* 淨買額(萬) *)
| col_net_sell_value    (* 淨賣額(萬) *)
| col_day_trade_pnl.    (* 當沖盈虧(萬) *)

Definition Column_eqb (a b : Column) : bool :=
  match a, b with
  | col_broker, col_broker
  | col_buy_lots, col_buy_lots
  | col_buy_price, col_buy_price
  | col_sell_lots, col_sell_lots
  | col_sell_price, col_sell_price
  | col_day_trade_lots, col_day_trade_lots
  | col_total_buy_amount, col_total_buy_amount
  | col_total_sell_amount, col_total_sell_amount
  | col_net_buy_lots, col_net_buy_lots
  | col_net_sell_lots, col_net_sell_lots
  | col_net_buy_value, col_net_buy_value
  | col_net_sell_value, col_net_sell_value
  | col_day_trade_pnl, col_day_trade_pnl => true
  | _, _ => false
  end.

(** The dict stored in [results[broker]], one field per key. *)
Record AggRow : Type := mkRow {
  r_broker : string;
  r_buy_lots : Q;
  r_buy_price : Q;
  r_sell_lots : Q;
  r_sell_price : Q;
  r_day_trade_lots : Q;
  r_total_buy_amount : Q;
  r_total_sell_amount : Q;
  r_net_buy_lots : Q;
  r_net_sell_lots : Q;
  r_net_buy_value : Z;
  r_net_sell_value : Z;
  r_day_trade_pnl : Q
}.

Definition row_columns : list Column :=
  [col_broker; col_buy_lots; col_buy_price; col_sell_lots; col_sell_price;
   col_day_trade_lots; col_total_buy_amount; col_total_sell_amount;
   col_net_buy_lots; col_net_sell_lots; col_net_buy_value; col_net_sell_value;
   col_day_trade_pnl].

(** Source lines 111-125. *)
Definition broker_row (b : string) (c : BrokerCalc) : result AggRow :=
  buy_lots <- truediv (inject_Z (total_buy_shares c)) 1000 ;;
  sell_lots <- truediv (inject_Z (total_sell_shares c)) 1000 ;;
  day_lots <- truediv (inject_Z (day_trade_volume c)) 1000 ;;
  buy_amount <- truediv (total_buy_amount c) 10000 ;;
  sell_amount <- truediv (total_sell_amount c) 10000 ;;
  net_buy_lots <-
    (if 0 <? net_shares c
     then q <- truediv (inject_Z (net_shares c)) 1000 ;; Ok (py_round q 1)
     else Ok 0%Q) ;;
  net_sell_lots <-
    (if net_shares c <? 0
     then q <- truediv (inject_Z (py_abs (net_shares c))) 1000 ;; Ok (py_round q 1)
     else Ok 0%Q) ;;
  pnl <- truediv (profit_loss c * inject_Z (day_trade_volume c))
                 (inject_Z (10000 * 1000)) ;;
  Ok {| r_broker := b;
        r_buy_lots := py_round buy_lots 1;
        r_buy_price := py_round (avg_buy_price c) 1;
        r_sell_lots := py_round sell_lots 1;
        r_sell_price := py_round (avg_sell_price c) 1;
        r_day_trade_lots := py_round day_lots 1;
        r_total_buy_amount := py_round buy_amount 1;
        r_total_sell_amount := py_round sell_amount 1;
        r_net_buy_lots := net_buy_lots;
        r_net_sell_lots := net_sell_lots;
        r_net_buy_value := py_int (py_round (net_buy_amount c) 1);
        r_net_sell_value := py_int (py_round (net_sell_amount c) 1);
        r_day_trade_pnl := pnl |}.

(** The aggregate frame: the labels it carries and its rows. *)
Record AggFrame : Type := mkFrame {
  columns : list Column;
  rows : list AggRow
}.

(** [pd.DataFrame.from_dict(results, orient="index")]: the columns are the
    keys of the row dicts, so an empty [results] gives a frame with no
    column at all. *)
Definition from_dict (results : list AggRow) : AggFrame :=
  match results with
  | [] => mkFrame [] []
  | _ => mkFrame row_columns results
  end.

(** [DataFrame.round(1)]: every float column rounded to one decimal, the
    string and int columns untouched. *)
Definition round_row (r : AggRow) : AggRow :=
  {| r_broker := r_broker r;
     r_buy_lots := py_round (r_buy_lots r) 1;
     r_buy_price := py_round (r_buy_price r) 1;
     r_sell_lots := py_round (r_sell_lots r) 1;
     r_sell_price := py_round (r_sell_price r) 1;
     r_day_trade_lots := py_round (r_day_trade_lots r) 1;
     r_total_buy_amount := py_round (r_total_buy_amount r) 1;
     r_total_sell_amount := py_round (r_total_sell_amount r) 1;
     r_net_buy_lots := py_round (r_net_buy_lots r) 1;
     r_net_sell_lots := py_round (r_net_sell_lots r) 1;
     r_net_buy_value := r_net_buy_value r;
     r_net_sell_value := r_net_sell_value r;
     r_day_trade_pnl := py_round (r_day_trade_pnl r) 1 |}.

Definition round_frame (f : AggFrame) : AggFrame :=
  mkFrame (columns f) (map round_row (rows f)).

(** One iteration of the loop: the locals, then the dict (lines 76-125). *)
Definition results_entry (df : DataFrame) (b : string) : result AggRow :=
  c <- broker_calc df b ;; broker_row b c.

Definition df2calculate (df : DataFrame) : result AggFrame :=
  results <- mapM (results_entry df) (unique (map broker df)) ;;
  Ok (round_frame (from_dict results)).

(** The records of the worked example of the specification. *)
Definition spec_example : DataFrame :=
  [ mkTrade "A" 10 1000 0; mkTrade "A" 12 0 500; mkTrade "B" 9 2000 0 ].

(** ** Ranked views *)

Definition has_column (f : AggFrame) (c : Column) : bool :=
  existsb (Column_eqb c) (columns f).

(** Insertion of [x] in front of the first row whose key is not greater:
    rows with equal keys keep their frame order.  pandas leaves the order
    of ties to the sorting routine; nothing below depends on it. *)
Fixpoint insert_desc (key : AggRow -> Q) (x : AggRow) (l : list AggRow) : list AggRow :=
  match l with
  | [] => [x]
  | y :: l' =>
      if Qle_bool (key y) (key x) then x :: y :: l'
      else y :: insert_desc key x l'
  end.

Definition sort_desc (key : AggRow -> Q) (l : list AggRow) : list AggRow :=
  fold_right (insert_desc key) [] l.

(** [df.sort_values(by=label, ascending=False)]; [key] reads the column
    [label] of a row. *)
Definition sort_values (f : AggFrame) (label : Column) (key : AggRow -> Q)
  : result AggFrame :=
  if has_column f label
  then Ok (mkFrame (columns f) (sort_desc key (rows f)))
  else Raise KeyError.

(** [l[:n]] on a list, as [DataFrame.head(n)] slices the rows: the first
    [n] rows, or all but the last [-n] rows when [n] is negative. *)
Definition py_head {A : Type} (l : list A) (n : Z) : list A :=
  if 0 <=? n then firstn (Z.to_nat n) l
  else firstn (Z.to_nat (Z.of_nat (List.length l) + n)) l.

Definition head (f : AggFrame) (n : Z) : AggFrame :=
  mkFrame (columns f) (py_head (rows f) n).

(** [df[cols]]. *)
Definition getitem_columns (f : AggFrame) (cols : list Column) : result AggFrame :=
  if forallb (has_column f) cols then Ok (mkFrame cols (rows f))
  else Raise KeyError.

(** A row of a ranked view: the index 名次 and the seven projected
    columns; [v_key] is the sixth one (net-buy lots, net-sell lots or
    day-trade lots) and [v_value] the seventh. *)
Record RankedRow (V : Type) : Type := mkRanked {
  rank : Z;
  v_broker : string;
  v_buy_lots : Q;
  v_buy_price : Q;
  v_sell_lots : Q;
  v_sell_price : Q;
  v_key : Q;
  v_value : V
}.

Arguments mkRanked {V}.
Arguments rank {V}.
Arguments v_broker {V}.
Arguments v_buy_lots {V}.
Arguments v_buy_price {V}.
Arguments v_sell_lots {V}.
Arguments v_sell_price {V}.
Arguments v_key {V}.
Arguments v_value {V}.

(** [reset_index(drop=True)] followed by [out.index = out.index + 1]. *)
Fixpoint with_rank {A : Type} (first : Z) (l : list A) : list (Z * A) :=
  match l with
  | [] => []
  | a :: l' => (first, a) :: with_rank (first + 1) l'
  end.

Definition project {V : Type} (key : AggRow -> Q) (value : AggRow -> V)
  (ir : Z * AggRow) : RankedRow V :=
  let (i, r) := ir in
  mkRanked i (r_broker r) (r_buy_lots r) (py_round (r_buy_price r) 1)
           (r_sell_lots r) (py_round (r_sell_price r) 1) (key r) (value r).

Definition top20_buy (df : AggFrame) (n : Z) : result (list (RankedRow Z)) :=
  sorted <- sort_values df col_net_buy_lots r_net_buy_lots ;;
  let df_buy_20 := head sorted n in
  out <- getitem_columns df_buy_20
           [col_broker; col_buy_lots; col_buy_price; col_sell_lots;
            col_sell_price; col_net_buy_lots; col_net_buy_value] ;;
  Ok (map (project r_net_buy_lots r_net_buy_value) (with_rank 1 (rows out))).

Definition top20_sell (df : AggFrame) (n : Z) : result (list (RankedRow Z)) :=
  sorted <- sort_values df col_net_sell_lots r_net_sell_lots ;;
  let df_sell_20 := head sorted n in
  out <- getitem_columns df_sell_20
           [col_broker; col_buy_lots; col_buy_price; col_sell_lots;
            col_sell_price; col_net_sell_lots; col_net_sell_value] ;;
  Ok (map (project r_net_sell_lots r_net_sell_value) (with_rank 1 (rows out))).

Definition top20_intraday (df : AggFrame) (n : Z) : result (list (RankedRow Q)) :=
  sorted <- sort_values df col_day_trade_lots r_day_trade_lots ;;
  let df_day_20 := head sorted n in
  out <- getitem_columns df_day_20
           [col_broker; col_buy_lots; col_buy_price; col_sell_lots;
            col_sell_price; col_day_trade_lots; col_day_trade_pnl] ;;
  Ok (map (project r_day_trade_lots (fun r => py_round (r_day_trade_pnl r) 1))
          (with_rank 1 (rows out))).

(** ** [csv2df] *)

(** The frame built from the rows of [csv.reader]: the header and the data
    rows as read.  The DataFrame constructor pads a row shorter than the
    header with missing cells, so cell [j] of a row is missing exactly when
    the row has at most [j] fields. *)
Record RawFrame : Type := mkRaw {
  header : list string;
  data : list (list string)
}.

(** [l[i]] and [l[i:]] on a Python list. *)
Definition py_getitem {A : Type} (l : list A) (i : Z) : result A :=
  let j := if 0 <=? i then i else Z.of_nat (List.length l) + i in
  if j <? 0 then Raise IndexError
  else match nth_error l (Z.to_nat j) with
       | Some a => Ok a
       | None => Raise IndexError
       end.

Definition py_slice_from {A : Type} (l : list A) (i : Z) : list A :=
  let j := if 0 <=? i then i else Z.max 0 (Z.of_nat (List.length l) + i) in
  skipn (Z.to_nat j) l.

(** [pd.DataFrame(data, columns=header)] on a list of lists: the widest
    row must have as many fields as there are labels. *)
Definition make_frame (rows_ : list (list string)) (labels : list string)
  : result RawFrame :=
  match rows_ with
  | [] => Ok (mkRaw labels [])
  | _ =>
      if Nat.eqb (fold_right Nat.max 0%nat (map (@List.length string) rows_))
                 (List.length labels)
      then Ok (mkRaw labels rows_)
      else Raise ValueError
  end.

(** The body of the [try] block, from the rows of the reader on. *)
Definition csv2df_try (rows_ : list (list string)) (header_row data_start_row : Z)
  : result (option RawFrame) :=
  match rows_ with
  | [] => Ok None
  | _ =>
      hd <- py_getitem rows_ header_row ;;
      let dt := py_slice_from rows_ data_start_row in
      df <- make_frame dt hd ;;
      Ok (Some df)
  end.

(** [except Exception: return None]. *)
Definition csv2df (rows_ : list (list string)) (header_row data_start_row : Z)
  : option RawFrame :=
  match csv2df_try rows_ header_row data_start_row with
  | Ok r => r
  | Raise _ => None
  end.

(** ** [df2clean] *)

(** The four cells of one block of a raw row; [None] is a missing cell. *)
Record RawQuad : Type := mkQuad {
  q_broker : option string;
  q_price : option string;
  q_buy : option string;
  q_sell : option string
}.

(** [df.iloc[:, [j0, j1, j2, j3]]]: every position must be a column. *)
Definition iloc (df : RawFrame) (j0 j1 j2 j3 : nat) : result (list RawQuad) :=
  let w := List.length (header df) in
  if forallb (fun j => Nat.ltb j w) [j0; j1; j2; j3]
  then Ok (map (fun row => mkQuad (nth_error row j0) (nth_error row j1)
                                  (nth_error row j2) (nth_error row j3))
               (data df))
  else Raise IndexError.

Section Normalizer.

(** [pd.to_numeric(..., errors="coerce")] on one string cell; [None] is
    NaN.  The grammar of numeric literals belongs to pandas and is left
    open. *)
Variable to_numeric : string -> option Q.

Definition numeric_cell (c : option string) : option Q :=
  match c with
  | Some s => to_numeric s
  | None => None
  end.

(** [.fillna(0).astype(int)]. *)
Definition volume_cell (c : option string) : Z :=
  match numeric_cell c with
  | Some q => py_int q
  | None => 0
  end.

(** Coercion of one row of [combined_df], then [dropna()]: the row goes
    when its broker or its price is missing. *)
Definition clean_quad (q : RawQuad) : option TradeRecord :=
  match q_broker q, numeric_cell (q_price q) with
  | Some b, Some p => Some (mkTrade b p (volume_cell (q_buy q)) (volume_cell (q_sell q)))
  | _, _ => None
  end.

Fixpoint dropna (l : list (option TradeRecord)) : DataFrame :=
  match l with
  | [] => []
  | Some r :: l' => r :: dropna l'
  | None :: l' => dropna l'
  end.

Definition df2clean (df : RawFrame) : result DataFrame :=
  left_df <- iloc df 1 2 3 4 ;;
  right_df <- iloc df 7 8 9 10 ;;
  let combined_df := left_df ++ right_df in
  Ok (dropna (map clean_quad combined_df)).

End Normalizer.

(** A reader of plain decimal literals ([-12.5], [1000], [.5]), used to
    run the Normalizer on concrete tables. *)
Definition digit_of (c : ascii) : option Z :=
  let n := nat_of_ascii c in
  if (Nat.leb 48 n && Nat.leb n 57)%bool then Some (Z.of_nat (n - 48)) else None.

Fixpoint scan_decimal (s : string) (seen_dot : bool) (mant : Z) (scale : positive)
  (ndigits : nat) : option (Z * positive) :=
  match s with
  | EmptyString => if Nat.eqb ndigits 0 then None else Some (mant, scale)
  | String c s' =>
      if Ascii.eqb c "."
      then if seen_dot then None else scan_decimal s' true mant scale ndigits
      else match digit_of c with
           | Some d =>
               scan_decimal s' seen_dot (10 * mant + d)
                            (if seen_dot then (10 * scale)%positive else scale)
                            (S ndigits)
           | None => None
           end
  end.

Definition decimal_literal (s : string) : option Q :=
  match s with
  | String "-" s' =>
      match scan_decimal s' false 0 1 0 with
      | Some (m, sc) => Some (Qmake (- m) sc)
      | None => None
      end
  | _ =>
      match scan_decimal s false 0 1 0 with
      | Some (m, sc) => Some (Qmake m sc)
      | None => None
      end
  end.


(** ** The engine calls of [app.py] (lines 51-53) *)

(** [csv2df] may return [None], and [df2clean(None)] raises
    [AttributeError] on [None.iloc]; the other exceptions are those of the
    engine. *)
Inductive app_exn : Type :=
| AttributeError
| Engine (e : exn).

Inductive app_result (A : Type) : Type :=
| Loaded (a : A)
| Crashed (e : app_exn).

Arguments Loaded {A} a.
Arguments Crashed {A} e.

(** [df2 = csv2df(file); df_raw = df2clean(df2); df = df2calculate(df_raw)],
    from the rows of the file on. *)
Definition app_load (to_numeric : string -> option Q) (rows_ : list (list string))
  : app_result (DataFrame * AggFrame) :=
  match csv2df rows_ 2 3 with
  | None => Crashed AttributeError
  | Some df2 =>
      match df2clean to_numeric df2 with
      | Raise e => Crashed (Engine e)
      | Ok df_raw =>
          match df2calculate df_raw with
          | Raise e => Crashed (Engine e)
          | Ok df => Loaded (df_raw, df)
          end
      end
  end.

(** ** Text and number formatting tools *)

From Stdlib Require Import NArith DecimalString DecimalZ Qabs.

Local Open Scope Z_scope.

(** A Python [str] is the list of its Unicode code points. *)
Definition PyStr := list N.

(** The scalar values the formatting tools receive: a missing value (None
    or NaN), a number, a string, or any other object. *)
Inductive PyValue : Type :=
| PyMissing
| PyNumber (x : Q)
| PyText (s : PyStr)
| PyObject.

(** An ASCII literal and the decimal text of an integer, [str(n)]. *)
Definition pystr (s : string) : PyStr := map N_of_ascii (list_ascii_of_string s).

Definition str_int (z : Z) : PyStr := pystr (NilZero.string_of_int (Z.to_int z)).

Definition in_range (lo hi ch : N) : bool := ((lo <=? ch) && (ch <=? hi))%N.

(** The characters [format_broker_name] keeps: CJK ideographs, CJK
    punctuation, full-width forms, and the three ASCII characters of
    ["()-"]. *)
Definition kept_in_name (ch : N) : bool :=
  in_range 0x4e00 0x9fff ch || in_range 0x3000 0x303f ch
  || in_range 0xff00 0xffef ch || existsb (N.eqb ch) (pystr "()-").

Definition format_broker_name (name : PyValue) : PyStr :=
  match name with
  | PyText s => filter kept_in_name s
  | _ => []
  end.

(** [str.isspace] of one character, [str.strip()], and the small string
    operations of [parse_formatted_number]. *)
Definition is_space (ch : N) : bool :=
  in_range 9 13 ch || in_range 28 32 ch || N.eqb ch 133 || N.eqb ch 160
  || N.eqb ch 5760 || in_range 8192 8202 ch || N.eqb ch 8232 || N.eqb ch 8233
  || N.eqb ch 8239 || N.eqb ch 8287 || N.eqb ch 12288.

Fixpoint lstrip (s : PyStr) : PyStr :=
  match s with
  | [] => []
  | ch :: s' => if is_space ch then lstrip s' else s
  end.

Definition strip (s : PyStr) : PyStr := rev (lstrip (rev (lstrip s))).

Definition remove_char (ch : N) (s : PyStr) : PyStr :=
  filter (fun c => negb (N.eqb c ch)) s.

Definition startswith_char (ch : N) (s : PyStr) : bool :=
  match s with
  | c :: _ => N.eqb c ch
  | [] => false
  end.

Definition endswith_char (ch : N) (s : PyStr) : bool := startswith_char ch (rev s).

Definition contains_char (ch : N) (s : PyStr) : bool := existsb (N.eqb ch) s.

(** [s.split(ch)[0]]: what precedes the first [ch]. *)
Fixpoint before_char (ch : N) (s : PyStr) : PyStr :=
  match s with
  | [] => []
  | c :: s' => if N.eqb c ch then [] else c :: before_char ch s'
  end.

(** [f"{x:.1f}"] and [f"{x:,.0f}"]: fixed notation with one and with no
    decimal, the latter with thousands separators. *)
Definition sign_text (x : Q) : PyStr := if Qle_bool 0 x then [] else pystr "-".

Definition format_1f (x : Q) : PyStr :=
  let t := Z.abs (round_half_even (x * 10)) in
  sign_text x ++ str_int (t / 10) ++ pystr "." ++ str_int (t mod 10).

Fixpoint group3 (rev_digits : PyStr) : PyStr :=
  match rev_digits with
  | a :: b :: c :: ((_ :: _) as more) => a :: b :: c :: 44%N :: group3 more
  | _ => rev_digits
  end.

Definition format_comma_0f (x : Q) : PyStr :=
  sign_text x ++ rev (group3 (rev (str_int (Z.abs (round_half_even x))))).

Section Formatting.

(** [float(s)] on a string; [None] is ValueError.  The grammar of float
    literals belongs to Python and is left open. *)
Variable py_float : PyStr -> option Q.

Definition float_or_zero (s : PyStr) (k : Q -> Q) : Q :=
  match py_float s with
  | Some x => k x
  | None => 0
  end.

Definition parse_formatted_number (value : PyValue) : Q :=
  match value with
  | PyMissing => 0
  | PyNumber x => x
  | PyText s =>
      let v := remove_char 44 (strip s) in
      if startswith_char 40 v && endswith_char 41 v then
        float_or_zero (removelast (tl v)) Qopp
      else if contains_char 24373 v && contains_char 40 v && contains_char 41 v then
        float_or_zero (before_char 24373 v) (fun x => x * 1000)
      else
        float_or_zero v (fun x => x)
  | PyObject => 0
  end%Q.

Definition format_volume_int (value : PyValue) : PyStr :=
  let numeric_value := parse_formatted_number value in
  if Qeq_bool numeric_value 0 then pystr "0"
  else str_int (round_half_even numeric_value).

(** Returns [(price_text, volume_text)]; a missing price is [None]. *)
Definition format_volume_with_price_label (volume_val : PyValue) (price_val : option Q)
  : PyStr * PyStr :=
  let volume_text := format_volume_int volume_val in
  let price_text :=
    match price_val with
    | None => []
    | Some p => if Qle_bool p 0 then [] else pystr "(" ++ format_1f p ++ pystr ")"
    end in
  (price_text, volume_text).

End Formatting.

(** ** [create_visualization] *)

(** What the function draws: the calls of [ax.text] and [ax.barh] in the
    order they are made, with their position, text, colour, font size and
    alignment.  The font file, the face colours of the figure and the
    final [tight_layout] are left out. *)
Inductive Artist : Type :=
| Text (x y : Q) (s : PyStr) (color : string) (fontsize : Z) (ha : string)
| Barh (y width left_ height : Q) (color : string).

Record Figure : Type := mkFigure {
  figsize : Q * Q;
  ylim : Q * Q;
  xlim : Q * Q;
  artists : list Artist
}.

Definition py_max (a b : Z) : Z := if a <? b then b else a.

(** [max(values)] on a non-empty list of floats; 0 stands for the empty
    list, which the function never passes. *)
Definition list_max (values : list Q) : Q :=
  match values with
  | [] => 0
  | x :: l => fold_left (fun m y => if Qle_bool y m then m else y) l x
  end.

(** [Series.iloc[i]]. *)
Definition iloc_row {A : Type} (l : list A) (i : Z) : result A := py_getitem l i.

Section Visualization.

Variable py_float : PyStr -> option Q.

(** The code points of a broker name held as a byte string. *)
Variable code_points : string -> PyStr.

(** The buy side of one row (source lines 399-417). *)
Definition buy_side (max_abs_volume_k y : Q) (row : RankedRow Z)
  : result (list Artist) :=
  let broker := format_broker_name (PyText (code_points (v_broker row))) in
  let volume_val := v_key row in
  let price_val := v_buy_price row in
  let '(price_text, volume_text) :=
    format_volume_with_price_label py_float (PyNumber volume_val) (Some price_val) in
  let volume_k := Qabs volume_val in
  bar_width <-
    (if Qle_bool max_abs_volume_k 0 then Ok 0%Q
     else q <- truediv volume_k max_abs_volume_k ;; Ok (q * 0.40)%Q) ;;
  let bar_left := (0.5 - bar_width)%Q in
  let x_vol := (0.5 - 0.015)%Q in
  Ok ([ Barh y bar_width bar_left 0.7 "#A02C2C";
        Text 0.01 y broker "#FFFFFF" 18 "left";
        Text x_vol y volume_text "#FF7A7A" 19 "right" ]
      ++ match price_text with
         | [] => []
         | _ => [ Text (x_vol - 0.08) y price_text "#E57373" 19 "right" ]
         end).

(** The sell side of one row (source lines 420-438). *)
Definition sell_side (max_abs_volume_k y : Q) (row : RankedRow Z)
  : result (list Artist) :=
  let broker := format_broker_name (PyText (code_points (v_broker row))) in
  let volume_val := v_key row in
  let price_val := v_sell_price row in
  let '(price_text, volume_text) :=
    format_volume_with_price_label py_float (PyNumber volume_val) (Some price_val) in
  let volume_k := Qabs volume_val in
  bar_width <-
    (if Qle_bool max_abs_volume_k 0 then Ok 0%Q
     else q <- truediv volume_k max_abs_volume_k ;; Ok (q * 0.40)%Q) ;;
  let bar_left := 0.5%Q in
  let x_vol := (0.5 + 0.015)%Q in
  Ok ([ Barh y bar_width bar_left 0.7 "#2E7D32";
        Text 0.99 y broker "#FFFFFF" 18 "right";
        Text x_vol y volume_text "#81C784" 19 "left" ]
      ++ match price_text with
         | [] => []
         | _ => [ Text (x_vol + 0.08) y price_text "#66BB6A" 19 "left" ]
         end).

(** One turn of the loop over the rows. *)
Definition draw_row (buy_top_raw sell_top_raw : list (RankedRow Z))
  (num_buy num_sell : Z) (max_abs_volume_k : Q) (i : Z) : result (list Artist) :=
  let y := (inject_Z i + 0.5)%Q in
  b <- (if i <? num_buy
        then row <- iloc_row buy_top_raw i ;; buy_side max_abs_volume_k y row
        else Ok []) ;;
  s <- (if i <? num_sell
        then row <- iloc_row sell_top_raw i ;; sell_side max_abs_volume_k y row
        else Ok []) ;;
  Ok (b ++ s).

Definition create_visualization (buy_top_raw sell_top_raw : list (RankedRow Z))
  (date : PyStr) (n_items : Z) : result Figure :=
  match buy_top_raw, sell_top_raw with
  | [], [] => Raise ValueError
  | _, _ =>
      let num_buy := py_min (Z.of_nat (List.length buy_top_raw)) n_items in
      let num_sell := py_min (Z.of_nat (List.length sell_top_raw)) n_items in
      let max_rows := py_max num_buy num_sell in
      let fig_height := (1.8 + inject_Z max_rows * 0.65 + 0.8)%Q in
      let header_y := (- 0.5)%Q in
      let header :=
        [ Text 0.5 (- 1.2) date "#AEAEAE" 19 "center";
          Text 0.18 header_y [36023; 36229; 20998; 40670]%N "#AEAEAE" 19 "center";
          Text 0.5 header_y [36023; 36067; 36229; 24373; 25976; 40; 20729; 41]%N
               "#AEAEAE" 19 "center";
          Text 0.82 header_y [36067; 36229; 20998; 40670]%N "#AEAEAE" 19 "center" ] in
      let all_volumes_k :=
        (if 0 <? num_buy
         then map Qabs (map v_key (py_head buy_top_raw num_buy)) else [])
        ++ (if 0 <? num_sell
            then map Qabs (map v_key (py_head sell_top_raw num_sell)) else []) in
      let max_abs_volume_k :=
        match all_volumes_k with
        | [] => 1%Q
        | _ => if Qle_bool (list_max all_volumes_k) 0 then 1%Q
               else list_max all_volumes_k
        end in
      drawn <- mapM (draw_row buy_top_raw sell_top_raw num_buy num_sell
                              max_abs_volume_k)
                    (map Z.of_nat (seq 0 (Z.to_nat max_rows))) ;;
      let total_buy_k :=
        if 0 <? num_buy then Qsum (map v_key (py_head buy_top_raw num_buy))
        else 0%Q in
      let total_sell_k :=
        if 0 <? num_sell then Qsum (map v_key (py_head sell_top_raw num_sell))
        else 0%Q in
      let summary_text :=
        pystr "Top" ++ str_int n_items
        ++ [32; 32317; 36023; 36229; 58; 32]%N ++ format_comma_0f total_buy_k
        ++ [32; 24373; 32; 32; 32; 32; 32; 32; 32]%N
        ++ pystr "Top" ++ str_int n_items
        ++ [32; 32317; 36067; 36229; 58; 32]%N ++ format_comma_0f total_sell_k
        ++ [32; 24373]%N in
      let summary_y := (inject_Z max_rows + 0.9)%Q in
      Ok (mkFigure (9, fig_height)%Q (inject_Z max_rows + 1.2, - 1.5)%Q
                   (- 0.05, 1.05)%Q
            (header ++ List.concat drawn
             ++ [ Text 0.5 summary_y summary_text "#E0E0E0" 17 "center" ]))
  end.

End Visualization.

(** ** The filters of [app.py] *)

(** [Series.min()] and [Series.max()] of a float column; [None] is the NaN
    of an empty column. *)
Definition series_min (values : list Q) : option Q :=
  match values with
  | [] => None
  | x :: l => Some (fold_left (fun m y => if Qle_bool m y then m else y) l x)
  end.

Definition series_max (values : list Q) : option Q :=
  match values with
  | [] => None
  | x :: l => Some (fold_left (fun m y => if Qle_bool y m then m else y) l x)
  end.

(** Lines 96-101: the records whose price is within the two bounds, then
    those of the selected brokers when some are selected. *)
Definition filter_raw (df_raw : DataFrame) (price_min_raw price_max_raw : Q)
  (selected_brokers_raw : list string) : DataFrame :=
  let df_raw_filtered :=
    filter (fun r => Qle_bool price_min_raw (price r)
                     && Qle_bool (price r) price_max_raw) df_raw in
  match selected_brokers_raw with
  | [] => df_raw_filtered
  | _ => filter (fun r => existsb (String.eqb (broker r)) selected_brokers_raw)
                df_raw_filtered
  end.

(** Lines 153-158: the same on the buy price of the aggregate table. *)
Definition filter_agg (df : list AggRow) (price_min_agg price_max_agg : Q)
  (selected_brokers_agg : list string) : list AggRow :=
  let df_filtered :=
    filter (fun r => Qle_bool price_min_agg (r_buy_price r)
                     && Qle_bool (r_buy_price r) price_max_agg) df in
  match selected_brokers_agg with
  | [] => df_filtered
  | _ => filter (fun r => existsb (String.eqb (r_broker r)) selected_brokers_agg)
                df_filtered
  end.

(** Lines 88 and 146: the brokers offered by the two selection boxes. *)
Definition all_brokers_raw (df_raw : DataFrame) : list string :=
  unique (map broker df_raw).

Definition all_brokers_agg (df : list AggRow) : list string :=
  unique (map r_broker df).

(** * The same code in machine arithmetic

    [df2clean] and the loop of [df2calculate] once more, over the numbers
    the interpreter holds: a volume is an int64 whose column sum wraps
    around, a price or an amount is a binary64 float with its rounding,
    its infinities and its NaN.  The properties that depend on overflow,
    on the rounding of a sum or on a value that is not finite are decided
    on this embedding. *)

From Stdlib Require Floats.PrimFloat Floats.FloatOps Floats.SpecFloat.

Module Machine.

Definition float : Set := PrimFloat.float.

(** ** int64 *)

Definition int64_min : Z := - 2 ^ 63.
Definition int64_max : Z := 2 ^ 63 - 1.

(** What an int64 keeps of an integer: its two's-complement value. *)
Definition wrap64 (z : Z) : Z := (z + 2 ^ 63) mod 2 ^ 64 - 2 ^ 63.

(** [Series.sum()] of an int64 column: additions modulo 2^64. *)
Definition int64_sum (l : list Z) : Z := wrap64 (Zsum l).

(** ** binary64 *)

(** A float is a finite number, with its exact value, an infinity or NaN. *)
Inductive kind : Type :=
| Finite (q : Q)
| Infinite (negative : bool)
| NotANumber.

Definition classify (x : float) : kind :=
  match FloatOps.Prim2SF x with
  | SpecFloat.S754_zero _ => Finite 0
  | SpecFloat.S754_finite s m e =>
      let n := if s then Zneg m else Zpos m in
      Finite (if 0 <=? e then inject_Z (n * 2 ^ e)
              else Qmake n (Pos.shiftl 1 (Z.to_N (- e))))
  | SpecFloat.S754_infinity s => Infinite s
  | SpecFloat.S754_nan => NotANumber
  end.

Definition is_nan (x : float) : bool :=
  match classify x with NotANumber => true | _ => false end.

Definition is_finite (x : float) : bool :=
  match classify x with Finite _ => true | _ => false end.

(** The float nearest to a rational, ties to the even mantissa: the
    quotient is taken with more than 56 significant bits and one more bit
    that records a non-zero remainder, then rounded to 53. *)
Definition nearest (q : Q) : float :=
  let n := Qnum q in
  let d := Zpos (Qden q) in
  let k := Z.max 0 (57 + Z.log2 d - Z.log2 (Z.abs n)) in
  let (quo, rem) := Z.div_eucl (Z.abs n * 2 ^ k) d in
  let m := 2 * quo + (if rem =? 0 then 0 else 1) in
  FloatOps.SF2Prim
    (SpecFloat.binary_normalize FloatOps.prec FloatOps.emax
       (if n <? 0 then - m else m) (- k - 1) false).

(** [float(n)] on an int, also the conversion of an int operand of a float
    operation and of an int64 column multiplied by a float column. *)
Definition of_int (n : Z) : float := nearest (inject_Z n).

(** [bool(x)]: a float is falsy only when it equals zero. *)
Definition truthy (x : float) : bool := negb (PrimFloat.eqb x PrimFloat.zero).

(** [round(x, ndigits)] on a float, [ndigits >= 0]: the decimal nearest to
    the exact binary value, ties to even, then the float nearest to that
    decimal; an infinity or NaN is returned as it is. *)
Definition round (x : float) (ndigits : nat) : float :=
  match classify x with
  | Finite q =>
      let z := round_half_even (q * inject_Z (Zpos (pow10 ndigits))) in
      if z =? 0 then PrimFloat.mul x PrimFloat.zero
      else nearest (Qmake z (pow10 ndigits))
  | _ => x
  end.

(** [int(x)] on a float. *)
Definition int (x : float) : result Z :=
  match classify x with
  | Finite q => Ok (py_int q)
  | Infinite _ => Raise OverflowError
  | NotANumber => Raise ValueError
  end.

(** [x / n] with a float and an int, and [a / b] with two ints. *)
Definition truediv (x : float) (n : Z) : result float :=
  if n =? 0 then Raise ZeroDivisionError else Ok (PrimFloat.div x (of_int n)).

Definition int_truediv (a b : Z) : result float :=
  if b =? 0 then Raise ZeroDivisionError
  else Ok (nearest (inject_Z a / inject_Z b)).

(** The sum of a float column of fewer than eight values: numpy and
    bottleneck both add them from the first to the last. *)
Definition running_sum (l : list float) : float :=
  fold_left PrimFloat.add l PrimFloat.zero.

(** ** Normalized records *)

Record TradeRecord : Type := mkTrade {
  broker : string;       (* 券商 *)
  price : float;         (* 價格 *)
  buy_shares : Z;        (* 買進股數 *)
  sell_shares : Z        (* 賣出股數 *)
}.

Definition DataFrame := list TradeRecord.

Definition records_of (df : DataFrame) (b : string) : DataFrame :=
  filter (fun r => String.eqb (broker r) b) df.

(** ** The loop of [df2calculate] *)

Record BrokerCalc : Type := mkCalc {
  total_buy_shares : Z;
  total_buy_amount : float;
  avg_buy_price : float;
  total_sell_shares : Z;
  total_sell_amount : float;
  avg_sell_price : float;
  day_trade_volume : Z;
  profit_loss : float;
  net_shares : Z;
  net_buy_amount : float;
  net_sell_amount : float
}.

Record AggRow : Type := mkRow {
  r_broker : string;
  r_buy_lots : float;
  r_buy_price : float;
  r_sell_lots : float;
  r_sell_price : float;
  r_day_trade_lots : float;
  r_total_buy_amount : float;
  r_total_sell_amount : float;
  r_net_buy_lots : float;
  r_net_sell_lots : float;
  r_net_buy_value : Z;
  r_net_sell_value : Z;
  r_day_trade_pnl : float
}.

Definition side_data (shares : TradeRecord -> Z) (broker_data : DataFrame) : DataFrame :=
  filter (fun r => 0 <? shares r) broker_data.

(** Source lines 80 and 90: the volume column is int64 and its sum wraps;
    [int(...)] makes it a Python int. *)
Definition side_total (shares : TradeRecord -> Z) (broker_data : DataFrame) : Z :=
  let data := side_data shares broker_data in
  match data with
  | [] => 0
  | _ => int64_sum (map shares data)
  end.

Section Engine.

(** [Series.sum()] of a float column.  The order of the additions belongs
    to the summing routine: from eight values on numpy adds in blocks. *)
Variable float_sum : list float -> float.

(** Source lines 82 and 92. *)
Definition side_amount (shares : TradeRecord -> Z) (broker_data : DataFrame) : float :=
  float_sum (map (fun r => PrimFloat.mul (price r) (of_int (shares r)))
                 (side_data shares broker_data)).

Definition side_stats (shares : TradeRecord -> Z) (broker_data : DataFrame)
  : result (Z * float * float) :=
  let total_shares := side_total shares broker_data in
  if 0 <? total_shares then
    let total_amount := side_amount shares broker_data in
    q <- truediv total_amount total_shares ;;
    Ok (total_shares, total_amount, round q 2)
  else
    Ok (total_shares, PrimFloat.zero, PrimFloat.zero).

(** Source lines 76-109. *)
Definition broker_calc (df : DataFrame) (b : string) : result BrokerCalc :=
  let broker_data := records_of df b in
  '(total_buy_shares, total_buy_amount, avg_buy_price) <-
     side_stats buy_shares broker_data ;;
  '(total_sell_shares, total_sell_amount, avg_sell_price) <-
     side_stats sell_shares broker_data ;;
  let day_trade_volume := py_min total_buy_shares total_sell_shares in
  let profit_loss :=
    if day_trade_volume =? 0 then PrimFloat.zero
    else PrimFloat.mul (PrimFloat.sub avg_sell_price avg_buy_price) (of_int 1000) in
  let net_shares := total_buy_shares - total_sell_shares in
  '(net_buy_amount, net_sell_amount) <-
     (if 0 <? net_shares then
        a <- (if truthy avg_buy_price
              then truediv (PrimFloat.mul (of_int net_shares) avg_buy_price) 10000
              else Ok PrimFloat.zero) ;;
        Ok (a, PrimFloat.zero)
      else
        a <- (if truthy avg_sell_price
              then truediv (PrimFloat.mul (of_int (py_abs net_shares)) avg_sell_price)
                           10000
              else Ok PrimFloat.zero) ;;
        Ok (PrimFloat.zero, a)) ;;
  Ok (mkCalc total_buy_shares total_buy_amount avg_buy_price
             total_sell_shares total_sell_amount avg_sell_price
             day_trade_volume profit_loss net_shares
             net_buy_amount net_sell_amount).

(** Source lines 111-125: the values of the dict in the order of its keys. *)
Definition broker_row (b : string) (c : BrokerCalc) : result AggRow :=
  buy_lots <- int_truediv (total_buy_shares c) 1000 ;;
  sell_lots <- int_truediv (total_sell_shares c) 1000 ;;
  day_lots <- int_truediv (day_trade_volume c) 1000 ;;
  buy_amount <- truediv (total_buy_amount c) 10000 ;;
  sell_amount <- truediv (total_sell_amount c) 10000 ;;
  net_buy_lots <-
    (if 0 <? net_shares c
     then q <- int_truediv (net_shares c) 1000 ;; Ok (round q 1)
     else Ok PrimFloat.zero) ;;
  net_sell_lots <-
    (if net_shares c <? 0
     then q <- int_truediv (py_abs (net_shares c)) 1000 ;; Ok (round q 1)
     else Ok PrimFloat.zero) ;;
  net_buy_value <- int (round (net_buy_amount c) 1) ;;
  net_sell_value <- int (round (net_sell_amount c) 1) ;;
  pnl <- truediv (PrimFloat.mul (profit_loss c) (of_int (day_trade_volume c)))
                 (10000 * 1000) ;;
  Ok {| r_broker := b;
        r_buy_lots := round buy_lots 1;
        r_buy_price := round (avg_buy_price c) 1;
        r_sell_lots := round sell_lots 1;
        r_sell_price := round (avg_sell_price c) 1;
        r_day_trade_lots := round day_lots 1;
        r_total_buy_amount := round buy_amount 1;
        r_total_sell_amount := round sell_amount 1;
        r_net_buy_lots := net_buy_lots;
        r_net_sell_lots := net_sell_lots;
        r_net_buy_value := net_buy_value;
        r_net_sell_value := net_sell_value;
        r_day_trade_pnl := pnl |}.

Definition results_entry (df : DataFrame) (b : string) : result AggRow :=
  c <- broker_calc df b ;; broker_row b c.

(** The dict [results] when the loop ends (source lines 73-125). *)
Definition results (df : DataFrame) : result (list AggRow) :=
  mapM (results_entry df) (unique (map broker df)).

End Engine.

(** ** The coercions of [df2clean] *)

(** [astype(int)] on one finite float: truncation; a value outside int64
    comes out of the conversion instruction as the least int64. *)
Definition cast_int64 (x : float) : Z :=
  match classify x with
  | Finite q =>
      let z := py_int q in
      if (int64_min <=? z) && (z <=? int64_max) then z else int64_min
  | _ => int64_min
  end.

Section Normalizer.

(** [pd.to_numeric(..., errors="coerce")] on one string cell: the float
    read, NaN when the cell is not a number.  pandas reads [inf] and
    [-inf] as the infinities. *)
Variable to_numeric : string -> float.

Definition numeric_cell (c : option string) : float :=
  match c with
  | Some s => to_numeric s
  | None => PrimFloat.nan
  end.

(** [.fillna(0)] on one cell. *)
Definition fillna0 (x : float) : float :=
  if is_nan x then PrimFloat.zero else x.

(** [.fillna(0).astype(int)] on a column: a value that is not finite makes
    the conversion raise [IntCastingNaNError], a [ValueError]. *)
Definition volume_column (cells : list (option string)) : result (list Z) :=
  let filled := map (fun c => fillna0 (numeric_cell c)) cells in
  if forallb is_finite filled then Ok (map cast_int64 filled)
  else Raise ValueError.

(** One row of [combined_df] after the coercions; [dropna()] removes it
    when its broker or its price is missing. *)
Definition clean_row (q : RawQuad) (buy sell : Z) : option TradeRecord :=
  match q_broker q with
  | Some b =>
      let p := numeric_cell (q_price q) in
      if is_nan p then None else Some (mkTrade b p buy sell)
  | None => None
  end.

Fixpoint zip_rows (qs : list RawQuad) (buys sells : list Z)
  : list (option TradeRecord) :=
  match qs, buys, sells with
  | q :: qs', b :: buys', s :: sells' => clean_row q b s :: zip_rows qs' buys' sells'
  | _, _, _ => []
  end.

Fixpoint dropna (l : list (option TradeRecord)) : DataFrame :=
  match l with
  | [] => []
  | Some r :: l' => r :: dropna l'
  | None :: l' => dropna l'
  end.

Definition df2clean (df : RawFrame) : result DataFrame :=
  left_df <- iloc df 1 2 3 4 ;;
  right_df <- iloc df 7 8 9 10 ;;
  let combined_df := left_df ++ right_df in
  buys <- volume_column (map q_buy combined_df) ;;
  sells <- volume_column (map q_sell combined_df) ;;
  Ok (dropna (zip_rows combined_df buys sells)).

End Normalizer.

(** A reader of cells for concrete tables: [inf] and [-inf], and the
    plain decimal literals. *)
Definition read_cell (s : string) : float :=
  if String.eqb s "inf" then PrimFloat.infinity
  else if String.eqb s "-inf" then PrimFloat.neg_infinity
  else match decimal_literal s with
       | Some q => nearest q
       | None => PrimFloat.nan
       end.

(** ** Notions used in the statements *)

(** The float of a decimal literal [n/d]. *)
Definition decimal (n : Z) (d : positive) : float := nearest (Qmake n d).

(** What the loop leaves in the amount and the average of one side. *)
Definition side_amt (float_sum : list float -> float) (shares : TradeRecord -> Z)
  (bd : DataFrame) : float :=
  if 0 <? side_total shares bd then side_amount float_sum shares bd
  else PrimFloat.zero.

Definition side_avg (float_sum : list float -> float) (shares : TradeRecord -> Z)
  (bd : DataFrame) : float :=
  if 0 <? side_total shares bd
  then round (PrimFloat.div (side_amount float_sum shares bd)
                            (of_int (side_total shares bd))) 2
  else PrimFloat.zero.

(** The locals of the iteration for broker [b]. *)
Definition locals (float_sum : list float -> float) (df : DataFrame) (b : string)
  : BrokerCalc :=
  let bd := records_of df b in
  let tb := side_total buy_shares bd in
  let ab := side_avg float_sum buy_shares bd in
  let ts := side_total sell_shares bd in
  let av := side_avg float_sum sell_shares bd in
  let dv := py_min tb ts in
  let ns := tb - ts in
  mkCalc tb (side_amt float_sum buy_shares bd) ab
         ts (side_amt float_sum sell_shares bd) av
         dv
         (if dv =? 0 then PrimFloat.zero
          else PrimFloat.mul (PrimFloat.sub av ab) (of_int 1000))
         ns
         (if 0 <? ns
          then if truthy ab
               then PrimFloat.div (PrimFloat.mul (of_int ns) ab) (of_int 10000)
               else PrimFloat.zero
          else PrimFloat.zero)
         (if 0 <? ns then PrimFloat.zero
          else if truthy av
               then PrimFloat.div (PrimFloat.mul (of_int (py_abs ns)) av) (of_int 10000)
               else PrimFloat.zero).

(** The dict built from the locals [c], given the two values [int(...)]
    returned. *)
Definition row_of (b : string) (c : BrokerCalc) (net_buy_value net_sell_value : Z)
  : AggRow :=
  {| r_broker := b;
     r_buy_lots := round (nearest (inject_Z (total_buy_shares c) / inject_Z 1000)) 1;
     r_buy_price := round (avg_buy_price c) 1;
     r_sell_lots := round (nearest (inject_Z (total_sell_shares c) / inject_Z 1000)) 1;
     r_sell_price := round (avg_sell_price c) 1;
     r_day_trade_lots :=
       round (nearest (inject_Z (day_trade_volume c) / inject_Z 1000)) 1;
     r_total_buy_amount :=
       round (PrimFloat.div (total_buy_amount c) (of_int 10000)) 1;
     r_total_sell_amount :=
       round (PrimFloat.div (total_sell_amount c) (of_int 10000)) 1;
     r_net_buy_lots :=
       (if 0 <? net_shares c
        then round (nearest (inject_Z (net_shares c) / inject_Z 1000)) 1
        else PrimFloat.zero);
     r_net_sell_lots :=
       (if net_shares c <? 0
        then round (nearest (inject_Z (py_abs (net_shares c)) / inject_Z 1000)) 1
        else PrimFloat.zero);
     r_net_buy_value := net_buy_value;
     r_net_sell_value := net_sell_value;
     r_day_trade_pnl :=
       PrimFloat.div (PrimFloat.mul (profit_loss c) (of_int (day_trade_volume c)))
                     (of_int (10000 * 1000)) |}.

(** "(avg_sell_price - avg_buy_price) * 1000 * day_trade_volume
    / (10000 * 1000)" and "(avg_sell_price - avg_buy_price)
    * day_trade_volume / 10000", each evaluated from left to right. *)
Definition pnl_scaled (avg_buy avg_sell : float) (volume : Z) : float :=
  PrimFloat.div
    (PrimFloat.mul (PrimFloat.mul (PrimFloat.sub avg_sell avg_buy) (of_int 1000))
                   (of_int volume))
    (of_int (10000 * 1000)).

Definition pnl_simplified (avg_buy avg_sell : float) (volume : Z) : float :=
  PrimFloat.div (PrimFloat.mul (PrimFloat.sub avg_sell avg_buy) (of_int volume))
                (of_int 10000).

(** "day_trade_pnl equals the scaled expression when day_trade_volume > 0,
    and 0 otherwise; the net effect reduces to the simplified one." *)
Definition pnl_claim (c : BrokerCalc) (r : AggRow) : Prop :=
  (0 < day_trade_volume c ->
   PrimFloat.eqb (r_day_trade_pnl r)
     (pnl_scaled (avg_buy_price c) (avg_sell_price c) (day_trade_volume c)) = true) /\
  (~ 0 < day_trade_volume c ->
   PrimFloat.eqb (r_day_trade_pnl r) PrimFloat.zero = true) /\
  PrimFloat.eqb
    (pnl_scaled (avg_buy_price c) (avg_sell_price c) (day_trade_volume c))
    (pnl_simplified (avg_buy_price c) (avg_sell_price c) (day_trade_volume c)) = true.

(** "total_buy_shares >= 0, total_sell_shares >= 0, and day_trade_volume
    = min(total_buy_shares, total_sell_shares)." *)
Definition totals_claim (c : BrokerCalc) : Prop :=
  0 <= total_buy_shares c /\ 0 <= total_sell_shares c /\
  day_trade_volume c = Z.min (total_buy_shares c) (total_sell_shares c).

(** The derived fields of a side without volume. *)
Definition buy_side_zero (c : BrokerCalc) (r : AggRow) : Prop :=
  avg_buy_price c = PrimFloat.zero /\ total_buy_amount c = PrimFloat.zero /\
  r_buy_lots r = PrimFloat.zero /\ r_buy_price r = PrimFloat.zero /\
  r_total_buy_amount r = PrimFloat.zero /\ r_net_buy_value r = 0 /\
  (0 <= total_sell_shares c -> r_net_buy_lots r = PrimFloat.zero).

Definition sell_side_zero (c : BrokerCalc) (r : AggRow) : Prop :=
  avg_sell_price c = PrimFloat.zero /\ total_sell_amount c = PrimFloat.zero /\
  r_sell_lots r = PrimFloat.zero /\ r_sell_price r = PrimFloat.zero /\
  r_total_sell_amount r = PrimFloat.zero /\ r_net_sell_value r = 0 /\
  (0 <= total_buy_shares c -> r_net_sell_lots r = PrimFloat.zero).

(** The float fields of a row. *)
Definition float_fields (r : AggRow) : list float :=
  [ r_buy_lots r; r_buy_price r; r_sell_lots r; r_sell_price r;
    r_day_trade_lots r; r_total_buy_amount r; r_total_sell_amount r;
    r_net_buy_lots r; r_net_sell_lots r; r_day_trade_pnl r ].

(** "df2calculate never divides by zero and no output field is NaN or
    undefined": the loop ends and every float it stored is finite. *)
Definition defined_fields_claim (float_sum : list float -> float) (df : DataFrame)
  : Prop :=
  exists rows_, results float_sum df = Ok rows_ /\
    forall r, In r rows_ -> forallb is_finite (float_fields r) = true.

(** "df2calculate yields identical avg_buy_price and avg_sell_price for
    every broker" of two record sets. *)
Definition same_averages (float_sum : list float -> float) (df df' : DataFrame)
  : Prop :=
  forall b c c',
    broker_calc float_sum df b = Ok c -> broker_calc float_sum df' b = Ok c' ->
    PrimFloat.eqb (avg_buy_price c) (avg_buy_price c') = true /\
    PrimFloat.eqb (avg_sell_price c) (avg_sell_price c') = true.

(** Every broker's own rows come in the same order in both record sets. *)
Definition same_order_within_brokers (df df' : DataFrame) : Prop :=
  forall b, records_of df b = records_of df' b.

(** One broker buying 52,000 shares at 74.6, 26,000 at 74.4 and 82,000 at
    73.6; the same rows with the last one first; and the first record set
    with the rows of a second broker in between. *)
Definition order_example : DataFrame :=
  [ mkTrade "A" (decimal 746 10) 52000 0;
    mkTrade "A" (decimal 744 10) 26000 0;
    mkTrade "A" (decimal 736 10) 82000 0 ].

Definition reordered_example : DataFrame :=
  [ mkTrade "A" (decimal 736 10) 82000 0;
    mkTrade "A" (decimal 746 10) 52000 0;
    mkTrade "A" (decimal 744 10) 26000 0 ].

Definition two_brokers_example : DataFrame :=
  [ mkTrade "A" (decimal 746 10) 52000 0;
    mkTrade "A" (decimal 744 10) 26000 0;
    mkTrade "B" (decimal 9 1) 0 2000;
    mkTrade "A" (decimal 736 10) 82000 0 ].

Definition interleaved_example : DataFrame :=
  [ mkTrade "B" (decimal 9 1) 0 2000;
    mkTrade "A" (decimal 746 10) 52000 0;
    mkTrade "A" (decimal 744 10) 26000 0;
    mkTrade "A" (decimal 736 10) 82000 0 ].

(** A broker buying 2^62 shares twice at 1.0 and selling 1,000 at 2.0. *)
Definition overflow_example : DataFrame :=
  [ mkTrade "A" (decimal 1 1) (2 ^ 62) 0;
    mkTrade "A" (decimal 1 1) (2 ^ 62) 0;
    mkTrade "A" (decimal 2 1) 0 1000 ].

(** A broker buying 10,000 shares at 4.09 and selling 10,000 at 56.94. *)
Definition pnl_example : DataFrame :=
  [ mkTrade "A" (decimal 409 100) 10000 0;
    mkTrade "A" (decimal 5694 100) 0 10000 ].

(** A buyer at an infinite price; and a broker buying 3,000 shares at 10.0
    and selling 1,000 at each of the two infinities. *)
Definition infinite_price_example : DataFrame :=
  [ mkTrade "A" PrimFloat.infinity 1000 0 ].

Definition opposite_infinities_example : DataFrame :=
  [ mkTrade "A" (decimal 10 1) 3000 0;
    mkTrade "A" PrimFloat.infinity 0 1000;
    mkTrade "A" PrimFloat.neg_infinity 0 1000 ].

(** The rows of [combined_df] after the coercions, when they succeed. *)
Definition volume_cell (to_numeric : string -> float) (c : option string) : Z :=
  cast_int64 (fillna0 (numeric_cell to_numeric c)).

Definition clean_quad (to_numeric : string -> float) (q : RawQuad)
  : option TradeRecord :=
  clean_row to_numeric q (volume_cell to_numeric (q_buy q))
                         (volume_cell to_numeric (q_sell q)).

(** No volume cell of the two blocks reads as an infinity. *)
Definition volumes_finite (to_numeric : string -> float) (qs : list RawQuad) : bool :=
  forallb (fun q => is_finite (fillna0 (numeric_cell to_numeric (q_buy q)))) qs
  && forallb (fun q => is_finite (fillna0 (numeric_cell to_numeric (q_sell q)))) qs.

(** An eleven-column table whose first row has the buy volume [inf] on the
    left and the buy volume [x] on the right. *)
Definition infinite_volume_table : RawFrame :=
  mkRaw ["0"; "1"; "2"; "3"; "4"; "5"; "6"; "7"; "8"; "9"; "10"]%string
        [ ["1"; "A"; "10.5"; "inf"; "0"; ""; "2"; "B"; "9"; "x"; "5"] ]%string.

(** An eleven-column table whose only row has the price [inf] on the left
    and an empty right block. *)
Definition infinite_price_table : RawFrame :=
  mkRaw ["0"; "1"; "2"; "3"; "4"; "5"; "6"; "7"; "8"; "9"; "10"]%string
        [ ["1"; "A"; "inf"; "1000"; "0"; ""; ""; ""; ""; ""; ""] ]%string.

End Machine.

(** * Notions used in the statements *)

(** The rows of one broker, [df[df["券商"] == broker]]. *)
Definition records_of (df : DataFrame) (b : string) : DataFrame :=
  filter (fun r => String.eqb (broker r) b) df.

(** The exact share-weighted mean price of one side: the sum of
    price x shares over the rows with volume on that side, divided by the
    total of that side. *)
Definition weighted_mean (shares : TradeRecord -> Z) (bd : DataFrame) : Q :=
  (side_amount shares bd / inject_Z (side_total shares bd))%Q.

(** What the loop leaves in the amount and the average of one side. *)
Definition side_amt (shares : TradeRecord -> Z) (bd : DataFrame) : Q :=
  if 0 <? side_total shares bd then side_amount shares bd else 0%Q.

Definition side_avg (shares : TradeRecord -> Z) (bd : DataFrame) : Q :=
  if 0 <? side_total shares bd then py_round (weighted_mean shares bd) 2 else 0%Q.

(** The values of the locals of the iteration for broker [b]. *)
Definition calc_fields (df : DataFrame) (b : string) (c : BrokerCalc) : Prop :=
  let bd := records_of df b in
  total_buy_shares c = side_total buy_shares bd /\
  total_buy_amount c = side_amt buy_shares bd /\
  avg_buy_price c = side_avg buy_shares bd /\
  total_sell_shares c = side_total sell_shares bd /\
  total_sell_amount c = side_amt sell_shares bd /\
  avg_sell_price c = side_avg sell_shares bd /\
  day_trade_volume c = Z.min (total_buy_shares c) (total_sell_shares c) /\
  profit_loss c =
    (if day_trade_volume c =? 0 then 0%Q
     else ((avg_sell_price c - avg_buy_price c) * 1000)%Q) /\
  net_shares c = total_buy_shares c - total_sell_shares c /\
  net_buy_amount c =
    (if 0 <? net_shares c
     then if Qtruthy (avg_buy_price c)
          then (inject_Z (net_shares c) * avg_buy_price c / 10000)%Q else 0%Q
     else 0%Q) /\
  net_sell_amount c =
    (if 0 <? net_shares c then 0%Q
     else if Qtruthy (avg_sell_price c)
          then (inject_Z (Z.abs (net_shares c)) * avg_sell_price c / 10000)%Q
          else 0%Q).

(** The values of the keys of the dict built from the locals [c]. *)
Definition row_fields (b : string) (c : BrokerCalc) (r : AggRow) : Prop :=
  r_broker r = b /\
  r_buy_lots r = py_round (inject_Z (total_buy_shares c) / 1000) 1 /\
  r_buy_price r = py_round (avg_buy_price c) 1 /\
  r_sell_lots r = py_round (inject_Z (total_sell_shares c) / 1000) 1 /\
  r_sell_price r = py_round (avg_sell_price c) 1 /\
  r_day_trade_lots r = py_round (inject_Z (day_trade_volume c) / 1000) 1 /\
  r_total_buy_amount r = py_round (total_buy_amount c / 10000) 1 /\
  r_total_sell_amount r = py_round (total_sell_amount c / 10000) 1 /\
  r_net_buy_lots r =
    (if 0 <? net_shares c
     then py_round (inject_Z (net_shares c) / 1000) 1 else 0%Q) /\
  r_net_sell_lots r =
    (if net_shares c <? 0
     then py_round (inject_Z (Z.abs (net_shares c)) / 1000) 1 else 0%Q) /\
  r_net_buy_value r = py_int (py_round (net_buy_amount c) 1) /\
  r_net_sell_value r = py_int (py_round (net_sell_amount c) 1) /\
  r_day_trade_pnl r =
    (profit_loss c * inject_Z (day_trade_volume c) / inject_Z (10000 * 1000))%Q.

(** [r] is the dict stored in [results[b]] and [c] the locals it was built
    from, for a broker [b] of the frame [df]. *)
Definition is_entry (df : DataFrame) (b : string) (c : BrokerCalc) (r : AggRow) : Prop :=
  In b (map broker df) /\ broker_calc df b = Ok c /\ broker_row b c = Ok r.

(** The frame computed from the worked example. *)
Definition spec_frame : AggFrame :=
  Eval vm_compute in
    match df2calculate spec_example with
    | Ok f => f
    | Raise _ => mkFrame [] []
    end.

Definition spec_row_A : AggRow := Eval vm_compute in nth 0 (rows spec_frame)
  (mkRow "" 0 0 0 0 0 0 0 0 0 0 0 0).

(** "Exactly one of the net-buy-value and net-sell-value output fields is
    non-zero, unless net_shares == 0, in which case both are zero." *)
Definition net_value_exactly_one (c : BrokerCalc) (row : AggRow) : Prop :=
  (net_shares c = 0 -> r_net_buy_value row = 0 /\ r_net_sell_value row = 0) /\
  (net_shares c <> 0 ->
   (r_net_buy_value row <> 0 /\ r_net_sell_value row = 0) \/
   (r_net_buy_value row = 0 /\ r_net_sell_value row <> 0)).

(** "avg_buy_price equals the sum of price x buy_shares over the broker's
    records with buy_shares > 0, divided by total_buy_shares; for a broker
    with total_buy_shares = 0 it equals 0; symmetrically for the sell
    side." *)
Definition avg_price_is_exact_mean (df : DataFrame) (b : string) (c : BrokerCalc)
  : Prop :=
  (0 < total_buy_shares c ->
   (avg_buy_price c == weighted_mean buy_shares (records_of df b))%Q) /\
  (total_buy_shares c = 0 -> (avg_buy_price c == 0)%Q) /\
  (0 < total_sell_shares c ->
   (avg_sell_price c == weighted_mean sell_shares (records_of df b))%Q) /\
  (total_sell_shares c = 0 -> (avg_sell_price c == 0)%Q).

(** One broker buying 1 share at 1.0 and 2 shares at 2.0: the exact mean
    is 5/3. *)
Definition thirds_example : DataFrame :=
  [ mkTrade "A" 1 1 0; mkTrade "A" 2 2 0 ].

(** The downstream monetary fields as functions of the two averages and
    the two totals (source lines 99-124): the day-trade P&L stored in the
    dict, the net-buy value and the net-sell value. *)
Definition monetary_fields (avg_buy avg_sell : Q) (total_buy total_sell : Z)
  : Q * Z * Z :=
  let day_trade := Z.min total_buy total_sell in
  let net := total_buy - total_sell in
  ((if day_trade =? 0 then 0 else (avg_sell - avg_buy) * 1000)
     * inject_Z day_trade / inject_Z (10000 * 1000),
   py_int (py_round (if 0 <? net then inject_Z net * avg_buy / 10000 else 0) 1),
   py_int (py_round (if 0 <? net then 0
                     else inject_Z (Z.abs net) * avg_sell / 10000) 1))%Q.

(** A broker buying 2,000,000 shares at 1.0 and 4,000,000 at 2.0 and
    selling 3,000,000 at 2.0: the exact buy mean is 5/3, the rounded one
    1.67. *)
Definition rounding_example : DataFrame :=
  [ mkTrade "A" 1 2000000 0; mkTrade "A" 2 4000000 0; mkTrade "A" 2 0 3000000 ].

(** The derived fields of one side, and of the day trade, are all 0. *)
Definition buy_side_zero (c : BrokerCalc) (row : AggRow) : Prop :=
  avg_buy_price c = 0%Q /\ total_buy_amount c = 0%Q /\
  (r_buy_lots row == 0)%Q /\ (r_buy_price row == 0)%Q /\
  (r_total_buy_amount row == 0)%Q /\ (r_net_buy_lots row == 0)%Q /\
  r_net_buy_value row = 0.

Definition sell_side_zero (c : BrokerCalc) (row : AggRow) : Prop :=
  avg_sell_price c = 0%Q /\ total_sell_amount c = 0%Q /\
  (r_sell_lots row == 0)%Q /\ (r_sell_price row == 0)%Q /\
  (r_total_sell_amount row == 0)%Q /\ (r_net_sell_lots row == 0)%Q /\
  r_net_sell_value row = 0.


(** Descending order of the rows by a key column. *)
Definition key_descending (key : AggRow -> Q) (x y : AggRow) : Prop :=
  (key y <= key x)%Q.

(** The rows of a view: index from 1, then projection. *)
Definition view_rows {V : Type} (key : AggRow -> Q) (value : AggRow -> V)
  (l : list AggRow) : list (RankedRow V) :=
  map (project key value) (with_rank 1 l).

(** A ranked view over the frame [f] with parameter [n]: its length is
    min(n, number of rows of [f]), its key column is descending and its
    index counts from 1. *)
Definition is_top_view {V : Type} (n : Z) (f : AggFrame) (v : list (RankedRow V))
  : Prop :=
  Z.of_nat (List.length v) = Z.min n (Z.of_nat (List.length (rows f))) /\
  StronglySorted (fun x y => (y <= x)%Q) (map v_key v) /\
  map rank v = map Z.of_nat (seq 1 (List.length v)).

(** "Each ranked view has length min(n, number of brokers)", for the
    buy-ranked view. *)
Definition view_length_claim (f : AggFrame) (n : Z) : Prop :=
  forall v, top20_buy f n = Ok v ->
            Z.of_nat (List.length v) = Z.min n (Z.of_nat (List.length (rows f))).

(** The left or right quadruple of a raw row, starting at column [j]. *)
Definition block (j : nat) (row : list string) : RawQuad :=
  mkQuad (nth_error row j) (nth_error row (j + 1))
         (nth_error row (j + 2)) (nth_error row (j + 3)).

(** The rows of [combined_df]: all left quadruples, then all right ones. *)
Definition combined (df : RawFrame) : list RawQuad :=
  map (block 1) (data df) ++ map (block 7) (data df).

(** A raw table of eleven columns: a full row whose right price and left
    volumes are not numbers, and a row that stops after its left block. *)
Definition raw_example : RawFrame :=
  mkRaw ["0"; "1"; "2"; "3"; "4"; "5"; "6"; "7"; "8"; "9"; "10"]%string
        [ ["1"; "A"; "10.5"; "1,000"; "x"; ""; "2"; "B"; "bad"; "1"; "2"];
          ["3"; "C"; "9"; ""; ""] ]%string.

(** A report with its title line, a blank line and the header line, and no
    data line. *)
Definition header_only_csv : list (list string) :=
  [ ["title"]; [];
    ["no"; "broker"; "price"; "buy"; "sell"; "";
     "no"; "broker"; "price"; "buy"; "sell"] ]%string.


(** [row] is the dict [r] with only its day-trade P&L rounded to one
    decimal. *)
Definition same_but_pnl_rounded (r row : AggRow) : Prop :=
  r_broker row = r_broker r /\
  (r_buy_lots row == r_buy_lots r)%Q /\
  (r_buy_price row == r_buy_price r)%Q /\
  (r_sell_lots row == r_sell_lots r)%Q /\
  (r_sell_price row == r_sell_price r)%Q /\
  (r_day_trade_lots row == r_day_trade_lots r)%Q /\
  (r_total_buy_amount row == r_total_buy_amount r)%Q /\
  (r_total_sell_amount row == r_total_sell_amount r)%Q /\
  (r_net_buy_lots row == r_net_buy_lots r)%Q /\
  (r_net_sell_lots row == r_net_sell_lots r)%Q /\
  r_net_buy_value row = r_net_buy_value r /\
  r_net_sell_value row = r_net_sell_value r /\
  r_day_trade_pnl row = py_round (r_day_trade_pnl r) 1.



(** [v] shows the rows of [f] with the largest keys: the rows of [f] split
    into the rows shown, in the order shown, and the rows left out, and no
    row left out has a larger key than a row shown. *)
Definition is_top_selection {V : Type} (key : AggRow -> Q) (value : AggRow -> V)
  (f : AggFrame) (v : list (RankedRow V)) : Prop :=
  exists top rest,
    Permutation (rows f) (top ++ rest) /\
    v = view_rows key value top /\
    Forall (fun x => Forall (fun y => (key y <= key x)%Q) rest) top.

(** The column lists of the three views. *)
Definition buy_view_columns : list Column :=
  [col_broker; col_buy_lots; col_buy_price; col_sell_lots; col_sell_price;
   col_net_buy_lots; col_net_buy_value].

Definition sell_view_columns : list Column :=
  [col_broker; col_buy_lots; col_buy_price; col_sell_lots; col_sell_price;
   col_net_sell_lots; col_net_sell_value].

Definition intraday_view_columns : list Column :=
  [col_broker; col_buy_lots; col_buy_price; col_sell_lots; col_sell_price;
   col_day_trade_lots; col_day_trade_pnl].

(** The number of fields of the widest row. *)
Definition widest (rows_ : list (list string)) : nat :=
  fold_right Nat.max 0%nat (map (@List.length string) rows_).

(** A table of five columns, too narrow for the right block. *)
Definition narrow_example : RawFrame :=
  mkRaw ["0"; "1"; "2"; "3"; "4"]%string [ ["1"; "A"; "10.5"; "100"; "0"] ]%string.

(** A report of eleven columns with one data line. *)
Definition one_line_csv : list (list string) :=
  header_only_csv
  ++ [ ["1"; "A"; "10.5"; "1000"; "0"; ""; "2"; "B"; "10.6"; "0"; "500"] ]%string.

(** Reading a text of ASCII characters back as a byte string, and as a
    decimal integer. *)
Definition unpystr (s : PyStr) : string := string_of_list_ascii (map ascii_of_N s).

Definition int_of_pystr (s : PyStr) : option Z :=
  option_map Z.of_int (NilZero.int_of_string (unpystr s)).

(** A reader of decimal integers, standing for [float] on the texts that
    [format_volume_int] writes. *)
Definition float_of_int_text (s : PyStr) : option Q :=
  option_map inject_Z (int_of_pystr s).

(** The characters of the decimal text of an integer. *)
Definition is_int_char (ch : N) : bool := N.eqb ch 45 || in_range 48 57 ch.

(** A broker label as the report writes it: code, blank, name. *)
Definition label_example : PyStr :=
  [57; 65; 48; 48; 32; 27704; 35920; 37329; 40; 21488; 21271; 41]%N.

(** Notions for the figure: the bars among the artists, the rows of a
    view that are shown, the scale of the bars and the width of a bar. *)
Definition is_bar (a : Artist) : bool :=
  match a with
  | Barh _ _ _ _ _ => true
  | Text _ _ _ _ _ _ => false
  end.

Definition shown_rows (view : list (RankedRow Z)) (n_items : Z) : list (RankedRow Z) :=
  let num := py_min (Z.of_nat (List.length view)) n_items in
  if 0 <? num then py_head view num else [].

Definition shown_volumes (buy_top_raw sell_top_raw : list (RankedRow Z)) (n_items : Z)
  : list Q :=
  map Qabs (map v_key (shown_rows buy_top_raw n_items))
  ++ map Qabs (map v_key (shown_rows sell_top_raw n_items)).

Definition volume_scale (buy_top_raw sell_top_raw : list (RankedRow Z)) (n_items : Z)
  : Q :=
  match shown_volumes buy_top_raw sell_top_raw n_items with
  | [] => 1%Q
  | _ => if Qle_bool (list_max (shown_volumes buy_top_raw sell_top_raw n_items)) 0
         then 1%Q
         else list_max (shown_volumes buy_top_raw sell_top_raw n_items)
  end.

Definition bar_width_of (scale volume : Q) : Q :=
  if Qle_bool scale 0 then 0%Q else (Qabs volume / scale * 0.40)%Q.

(** The bars of row [i]: one for the buy view and one for the sell view,
    when the view has a row [i] to show. *)
Definition row_bars (buy_top_raw sell_top_raw : list (RankedRow Z))
  (num_buy num_sell : Z) (scale : Q) (i : Z) : list Artist :=
  let y := (inject_Z i + 0.5)%Q in
  (if i <? num_buy
   then match nth_error buy_top_raw (Z.to_nat i) with
        | Some row =>
            [ Barh y (bar_width_of scale (v_key row))
                   (0.5 - bar_width_of scale (v_key row)) 0.7 "#A02C2C" ]
        | None => []
        end
   else [])
  ++ (if i <? num_sell
      then match nth_error sell_top_raw (Z.to_nat i) with
           | Some row =>
               [ Barh y (bar_width_of scale (v_key row)) 0.5 0.7 "#2E7D32" ]
           | None => []
           end
      else []).

(** The two views of the worked example. *)
Definition spec_buy_view : list (RankedRow Z) :=
  Eval vm_compute in
    match top20_buy spec_frame 20 with
    | Ok v => v
    | Raise _ => []
    end.

Definition spec_sell_view : list (RankedRow Z) :=
  Eval vm_compute in
    match top20_sell spec_frame 20 with
    | Ok v => v
    | Raise _ => []
    end.

(** The chart of the worked example, with ASCII broker names. *)
Definition spec_fig : Figure :=
  Eval vm_compute in
    match create_visualization float_of_int_text pystr spec_buy_view spec_sell_view
                               (pystr "2024-01-01") 20 with
    | Ok fig => fig
    | Raise _ => mkFigure (0, 0)%Q (0, 0)%Q (0, 0)%Q []
    end.
(** * Properties *)

(** ** Numeric primitives *)

Lemma truediv_Ok (x y : Q) :
  Qeq_bool y 0 = false -> truediv x y = Ok (x / y)%Q.
Proof. intros H. unfold truediv. now rewrite H. Qed.

Lemma Qeq_bool_inject_Z_pos (z : Z) :
  0 < z -> Qeq_bool (inject_Z z) 0 = false.
Proof.
  intros H. apply not_true_is_false. intros E.
  apply Qeq_bool_eq in E. unfold Qeq in E. simpl in E. lia.
Qed.

Lemma truediv_const (x : Q) (z : Z) :
  0 < z -> truediv x (inject_Z z) = Ok (x / inject_Z z)%Q.
Proof. intros H. apply truediv_Ok. now apply Qeq_bool_inject_Z_pos. Qed.

#[export] Instance round_half_even_Proper : Proper (Qeq ==> eq) round_half_even.
Proof.
  intros x y E. unfold round_half_even.
  rewrite (Qfloor_comp _ _ E).
  assert (C : (x - inject_Z (Qfloor y) ?= 1 # 2)%Q
              = (y - inject_Z (Qfloor y) ?= 1 # 2)%Q)
    by now rewrite E.
  now rewrite C.
Qed.

#[export] Instance py_round_Proper : Proper (Qeq ==> eq ==> eq) py_round.
Proof.
  intros x y E n ? <-. unfold py_round.
  assert (E' : (x * inject_Z (Z.pos (pow10 n)) == y * inject_Z (Z.pos (pow10 n)))%Q)
    by now rewrite E.
  now rewrite (round_half_even_Proper _ _ E').
Qed.

#[export] Instance py_int_Proper : Proper (Qeq ==> eq) py_int.
Proof.
  intros x y E. unfold py_int.
  assert (B : Qle_bool 0 x = Qle_bool 0 y).
  { destruct (Qle_bool 0 x) eqn:Hx, (Qle_bool 0 y) eqn:Hy; try reflexivity.
    - apply Qle_bool_iff in Hx. rewrite E in Hx. apply Qle_bool_iff in Hx. congruence.
    - apply Qle_bool_iff in Hy. rewrite <- E in Hy. apply Qle_bool_iff in Hy. congruence. }
  rewrite B. unfold Qceiling. now rewrite (Qfloor_comp _ _ E), (Qfloor_comp (- x) (- y)); [|rewrite E].
Qed.

Lemma round_half_even_Z (z : Z) : round_half_even (inject_Z z) = z.
Proof.
  unfold round_half_even. rewrite Qfloor_Z.
  assert (C : (inject_Z z - inject_Z z ?= 1 # 2)%Q = Lt).
  { apply Qlt_alt.
    assert (E : (inject_Z z - inject_Z z == 0)%Q) by ring.
    rewrite E. reflexivity. }
  now rewrite C.
Qed.

Lemma py_round_zero (x : Q) (n : nat) : (x == 0)%Q -> (py_round x n == 0)%Q.
Proof.
  intros E. rewrite (py_round_Proper _ _ E n n eq_refl).
  unfold py_round.
  assert (Z0 : (0 * inject_Z (Z.pos (pow10 n)) == inject_Z 0)%Q) by (simpl; ring).
  rewrite (round_half_even_Proper _ _ Z0), round_half_even_Z. reflexivity.
Qed.

Lemma py_int_zero (x : Q) : (x == 0)%Q -> py_int x = 0.
Proof. intros E. now rewrite (py_int_Proper _ _ E). Qed.

Lemma py_min_spec (a b : Z) : py_min a b = Z.min a b.
Proof. unfold py_min. destruct (Z.ltb_spec b a); lia. Qed.

Lemma py_round_idempotent (x : Q) (n : nat) :
  py_round (py_round x n) n = py_round x n.
Proof.
  unfold py_round at 1 3.
  set (z := round_half_even (x * inject_Z (Z.pos (pow10 n)))).
  assert (E : ((z # pow10 n) * inject_Z (Z.pos (pow10 n)) == inject_Z z)%Q).
  { unfold Qeq. simpl. rewrite Pos.mul_1_r. ring. }
  unfold py_round. fold z.
  now rewrite (round_half_even_Proper _ _ E), round_half_even_Z.
Qed.

(** ** The loop of [df2calculate] *)

Lemma unique_In (l : list string) (x : string) : In x (unique l) <-> In x l.
Proof.
  induction l as [|y l IH]; simpl; [tauto|].
  rewrite filter_In, IH. split.
  - intros [H|[H _]]; auto.
  - intros [H|H]; auto.
    destruct (String.eqb_spec x y) as [->|N]; auto.
Qed.

Lemma mapM_Forall2 {A B : Type} (f : A -> result B) (l : list A) (bs : list B) :
  mapM f l = Ok bs -> Forall2 (fun a b => f a = Ok b) l bs.
Proof.
  revert bs. induction l as [|a l IH]; simpl; intros bs H.
  - injection H as <-. constructor.
  - destruct (f a) as [b|e] eqn:Fa; simpl in H; [|discriminate].
    destruct (mapM f l) as [bs'|e] eqn:M; simpl in H; [|discriminate].
    injection H as <-. constructor; auto.
Qed.

Lemma mapM_total {A B : Type} (f : A -> result B) (l : list A) :
  (forall a, In a l -> exists b, f a = Ok b) -> exists bs, mapM f l = Ok bs.
Proof.
  induction l as [|a l IH]; simpl; intros H.
  - now exists [].
  - destruct (H a (or_introl eq_refl)) as [b Fa].
    destruct IH as [bs M]; [intros; apply H; auto|].
    exists (b :: bs). now rewrite Fa, M.
Qed.


Lemma side_total_Zsum (shares : TradeRecord -> Z) (bd : DataFrame) :
  side_total shares bd = Zsum (map shares (side_data shares bd)).
Proof. unfold side_total. now destruct (side_data shares bd). Qed.


Lemma side_stats_eq (shares : TradeRecord -> Z) (bd : DataFrame) :
  side_stats shares bd
  = Ok (side_total shares bd, side_amt shares bd, side_avg shares bd).
Proof.
  unfold side_stats, side_amt, side_avg, weighted_mean.
  destruct (Z.ltb_spec 0 (side_total shares bd)) as [P|N]; [|reflexivity].
  now rewrite truediv_const.
Qed.

Lemma broker_calc_total (df : DataFrame) (b : string) :
  exists c, broker_calc df b = Ok c /\ calc_fields df b c.
Proof.
  unfold broker_calc. fold (records_of df b).
  rewrite !side_stats_eq. cbn [bind].
  set (bd := records_of df b).
  destruct (0 <? side_total buy_shares bd - side_total sell_shares bd) eqn:Hn.
  - destruct (Qtruthy (side_avg buy_shares bd)) eqn:Ht.
    + rewrite (truediv_const _ 10000) by lia. cbn [bind].
      eexists; split; [reflexivity|].
      unfold calc_fields. fold bd. cbn. rewrite Hn, Ht, py_min_spec. repeat split.
    + cbn [bind]. eexists; split; [reflexivity|].
      unfold calc_fields. fold bd. cbn. rewrite Hn, Ht, py_min_spec. repeat split.
  - destruct (Qtruthy (side_avg sell_shares bd)) eqn:Ht.
    + rewrite (truediv_const _ 10000) by lia. cbn [bind].
      eexists; split; [reflexivity|].
      unfold calc_fields. fold bd. cbn. rewrite Hn, Ht, py_min_spec. repeat split.
    + cbn [bind]. eexists; split; [reflexivity|].
      unfold calc_fields. fold bd. cbn. rewrite Hn, Ht, py_min_spec. repeat split.
Qed.

Lemma broker_calc_inv (df : DataFrame) (b : string) (c : BrokerCalc) :
  broker_calc df b = Ok c -> calc_fields df b c.
Proof.
  intros H. destruct (broker_calc_total df b) as [c' [H' F]].
  rewrite H in H'. now injection H' as <-.
Qed.

Lemma broker_row_total (b : string) (c : BrokerCalc) :
  exists r, broker_row b c = Ok r /\ row_fields b c r.
Proof.
  unfold broker_row.
  rewrite !(truediv_const _ 1000), !(truediv_const _ 10000) by lia. cbn [bind].
  destruct (0 <? net_shares c) eqn:Hp, (net_shares c <? 0) eqn:Hm;
    rewrite ?(truediv_const _ 1000) by lia; cbn [bind];
    rewrite (truediv_const _ (10000 * 1000)) by lia; cbn [bind];
    (eexists; split; [reflexivity|]);
    unfold row_fields; cbn; rewrite ?Hp, ?Hm; repeat split.
Qed.

Lemma broker_row_inv (b : string) (c : BrokerCalc) (r : AggRow) :
  broker_row b c = Ok r -> row_fields b c r.
Proof.
  intros H. destruct (broker_row_total b c) as [r' [H' F]].
  rewrite H in H'. now injection H' as <-.
Qed.

Lemma results_entry_total (df : DataFrame) (b : string) :
  exists c r, broker_calc df b = Ok c /\ broker_row b c = Ok r
              /\ results_entry df b = Ok r.
Proof.
  destruct (broker_calc_total df b) as [c [Hc _]].
  destruct (broker_row_total b c) as [r [Hr _]].
  exists c, r. unfold results_entry. now rewrite Hc.
Qed.

Lemma rows_from_dict (results : list AggRow) :
  rows (round_frame (from_dict results)) = map round_row results.
Proof. now destruct results. Qed.

(** [df2calculate] returns a frame for every record set. *)
Lemma df2calculate_total (df : DataFrame) :
  exists results,
    mapM (results_entry df) (unique (map broker df)) = Ok results
    /\ df2calculate df = Ok (round_frame (from_dict results)).
Proof.
  destruct (mapM_total (results_entry df) (unique (map broker df))) as [results M].
  - intros b _. destruct (results_entry_total df b) as [c [r [_ [_ H]]]]. eauto.
  - exists results. unfold df2calculate. now rewrite M.
Qed.

(** Every row of the returned frame is the rounded dict of a broker of the
    record set. *)
Lemma df2calculate_rows (df : DataFrame) (frame : AggFrame) (row : AggRow) :
  df2calculate df = Ok frame -> In row (rows frame) ->
  exists b c r, is_entry df b c r /\ row = round_row r.
Proof.
  intros H Hin. destruct (df2calculate_total df) as [results [M H']].
  rewrite H in H'. injection H' as ->. rewrite rows_from_dict in Hin.
  apply in_map_iff in Hin as [r [<- Hr]].
  apply mapM_Forall2 in M.
  assert (G : forall bs rs, Forall2 (fun a b => results_entry df a = Ok b) bs rs ->
              In r rs -> exists b, In b bs /\ results_entry df b = Ok r).
  { induction 1; simpl; intros [].
    - subst. eauto.
    - destruct IHForall2 as [b [? ?]]; eauto. }
  destruct (G _ _ M Hr) as [b [Hb E]].
  destruct (results_entry_total df b) as [c [r' [Hc [Hrow E']]]].
  rewrite E in E'. injection E' as <-.
  exists b, c, r. split; [|reflexivity].
  split; [exact (proj1 (unique_In _ _) Hb)|]. auto.
Qed.


(** ** Per-broker aggregates *)

Lemma Qtruthy_false (x : Q) : Qtruthy x = false -> (x == 0)%Q.
Proof.
  unfold Qtruthy. intros H. apply negb_false_iff in H. now apply Qeq_bool_eq.
Qed.

Lemma guarded_amount (x k : Q) :
  ((if Qtruthy x then k * x / 10000 else 0) == k * x / 10000)%Q.
Proof.
  destruct (Qtruthy x) eqn:T; [reflexivity|].
  apply Qtruthy_false in T. rewrite T. field.
Qed.



(** C1, as amended. For every broker aggregate produced by df2calculate at
    most one of the net-buy-value and net-sell-value output fields is
    non-zero: a net buyer has net-sell value 0 and net-buy value
    int(round(net_shares * avg_buy_price / 10000, 1)), a net seller has
    net-buy value 0 and net-sell value
    int(round(|net_shares| * avg_sell_price / 10000, 1)), and a flat broker
    has both equal to 0. *)
Theorem net_value_at_most_one (df : DataFrame) (frame : AggFrame) (row : AggRow) :
  df2calculate df = Ok frame -> In row (rows frame) ->
  exists b c r,
    is_entry df b c r /\ row = round_row r /\
    (0 < net_shares c ->
     r_net_sell_value row = 0 /\
     r_net_buy_value row
     = py_int (py_round (inject_Z (net_shares c) * avg_buy_price c / 10000) 1)) /\
    (net_shares c < 0 ->
     r_net_buy_value row = 0 /\
     r_net_sell_value row
     = py_int (py_round (inject_Z (Z.abs (net_shares c)) * avg_sell_price c / 10000) 1)) /\
    (net_shares c = 0 -> r_net_buy_value row = 0 /\ r_net_sell_value row = 0) /\
    (r_net_buy_value row = 0 \/ r_net_sell_value row = 0).
Proof.
  intros H Hin.
  destruct (df2calculate_rows df frame row H Hin) as [b [c [r [E ->]]]].
  exists b, c, r. split; [exact E|]. split; [reflexivity|].
  destruct E as [_ [Hc Hr]]. apply broker_calc_inv in Hc. apply broker_row_inv in Hr.
  destruct Hc as (_ & _ & _ & _ & _ & _ & _ & _ & _ & Nb & Ns).
  destruct Hr as (_ & _ & _ & _ & _ & _ & _ & _ & _ & _ & Vb & Vs & _).
  cbn [round_row r_net_buy_value r_net_sell_value]. rewrite Vb, Vs, Nb, Ns.
  assert (Z0 : py_int (py_round 0 1) = 0) by reflexivity.
  destruct (Z.ltb_spec 0 (net_shares c)) as [P|N].
  - rewrite (py_round_Proper _ _ (guarded_amount _ _) 1%nat 1%nat eq_refl).
    repeat split; auto; lia.
  - rewrite (py_round_Proper _ _ (guarded_amount _ _) 1%nat 1%nat eq_refl).
    repeat split; auto; try lia.
    match goal with E0 : net_shares c = 0 |- _ => rewrite E0 end.
    apply py_int_zero, py_round_zero. simpl. field.
Qed.

Lemma net_value_at_most_one_witness :
  df2calculate spec_example = Ok spec_frame /\
  In spec_row_A (rows spec_frame) /\
  exists b c r,
    is_entry spec_example b c r /\ spec_row_A = round_row r /\
    (0 < net_shares c ->
     r_net_sell_value spec_row_A = 0 /\
     r_net_buy_value spec_row_A
     = py_int (py_round (inject_Z (net_shares c) * avg_buy_price c / 10000) 1)) /\
    (net_shares c < 0 ->
     r_net_buy_value spec_row_A = 0 /\
     r_net_sell_value spec_row_A
     = py_int (py_round (inject_Z (Z.abs (net_shares c)) * avg_sell_price c / 10000) 1)) /\
    (net_shares c = 0 ->
     r_net_buy_value spec_row_A = 0 /\ r_net_sell_value spec_row_A = 0) /\
    (r_net_buy_value spec_row_A = 0 \/ r_net_sell_value spec_row_A = 0).
Proof.
  split; [vm_compute; reflexivity|].
  split; [simpl; auto|].
  apply (net_value_at_most_one spec_example spec_frame spec_row_A).
  - vm_compute; reflexivity.
  - simpl; auto.
Defined.

(** C1, as stated, fails on the worked example of the specification:
    broker A is a net buyer of 500 shares at 10.0, its net-buy amount 0.5
    truncates to 0, and both output fields are 0. *)
Lemma net_value_both_zero :
  exists b c r,
    is_entry spec_example b c r /\ In (round_row r) (rows spec_frame) /\
    df2calculate spec_example = Ok spec_frame /\
    net_shares c = 500 /\
    ~ net_value_exactly_one c (round_row r).
Proof.
  eexists "A"%string, _, _. split.
  { split; [simpl; auto|]. split; vm_compute; reflexivity. }
  split; [simpl; auto|]. split; [vm_compute; reflexivity|].
  split; [reflexivity|].
  intros [_ H]. destruct H as [[H _]|[_ H]]; [discriminate| |]; now apply H.
Qed.



(** C3, as amended. For every broker with total_buy_shares > 0,
    avg_buy_price is the sum of price x buy_shares over the broker's
    records with buy_shares > 0, divided by total_buy_shares, rounded to
    two decimal places; with total_buy_shares = 0 it is 0; symmetrically
    for the sell side.  The price columns of the frame hold these averages
    rounded to one decimal place. *)
Theorem avg_price_is_rounded_mean (df : DataFrame) (frame : AggFrame) (row : AggRow) :
  df2calculate df = Ok frame -> In row (rows frame) ->
  exists b c r,
    is_entry df b c r /\ row = round_row r /\
    total_buy_shares c
    = Zsum (map buy_shares (side_data buy_shares (records_of df b))) /\
    total_sell_shares c
    = Zsum (map sell_shares (side_data sell_shares (records_of df b))) /\
    (0 < total_buy_shares c ->
     avg_buy_price c = py_round (weighted_mean buy_shares (records_of df b)) 2) /\
    (total_buy_shares c = 0 -> avg_buy_price c = 0%Q) /\
    (0 < total_sell_shares c ->
     avg_sell_price c = py_round (weighted_mean sell_shares (records_of df b)) 2) /\
    (total_sell_shares c = 0 -> avg_sell_price c = 0%Q) /\
    r_buy_price row = py_round (avg_buy_price c) 1 /\
    r_sell_price row = py_round (avg_sell_price c) 1.
Proof.
  intros H Hin.
  destruct (df2calculate_rows df frame row H Hin) as [b [c [r [E ->]]]].
  exists b, c, r. split; [exact E|]. split; [reflexivity|].
  destruct E as [_ [Hc Hr]]. apply broker_calc_inv in Hc. apply broker_row_inv in Hr.
  destruct Hc as (Tb & _ & Ab & Ts & _ & As & _).
  destruct Hr as (_ & _ & Pb & _ & Ps & _).
  cbn [round_row r_buy_price r_sell_price].
  rewrite Pb, Ps, !py_round_idempotent, Ab, As, Tb, Ts. unfold side_avg.
  repeat split; try apply side_total_Zsum.
  - intros P. apply Z.ltb_lt in P. now rewrite P.
  - intros Z0. now rewrite Z0.
  - intros P. apply Z.ltb_lt in P. now rewrite P.
  - intros Z0. now rewrite Z0.
Qed.

Lemma avg_price_is_rounded_mean_witness :
  df2calculate spec_example = Ok spec_frame /\
  In spec_row_A (rows spec_frame) /\
  exists b c r,
    is_entry spec_example b c r /\ spec_row_A = round_row r /\
    total_buy_shares c
    = Zsum (map buy_shares (side_data buy_shares (records_of spec_example b))) /\
    total_sell_shares c
    = Zsum (map sell_shares (side_data sell_shares (records_of spec_example b))) /\
    (0 < total_buy_shares c ->
     avg_buy_price c
     = py_round (weighted_mean buy_shares (records_of spec_example b)) 2) /\
    (total_buy_shares c = 0 -> avg_buy_price c = 0%Q) /\
    (0 < total_sell_shares c ->
     avg_sell_price c
     = py_round (weighted_mean sell_shares (records_of spec_example b)) 2) /\
    (total_sell_shares c = 0 -> avg_sell_price c = 0%Q) /\
    r_buy_price spec_row_A = py_round (avg_buy_price c) 1 /\
    r_sell_price spec_row_A = py_round (avg_sell_price c) 1.
Proof.
  split; [vm_compute; reflexivity|].
  split; [simpl; auto|].
  apply (avg_price_is_rounded_mean spec_example spec_frame spec_row_A).
  - vm_compute; reflexivity.
  - simpl; auto.
Defined.

(** C3, as stated, fails where the exact mean has more than two decimals:
    1 share at 1.0 and 2 shares at 2.0 have mean 5/3, the average kept by
    the loop is 1.67 and the price column shows 1.7. *)
Lemma avg_price_not_exact_mean :
  exists b c r,
    is_entry thirds_example b c r /\
    (weighted_mean buy_shares (records_of thirds_example b) == 5 # 3)%Q /\
    avg_buy_price c = (167 # 100)%Q /\
    r_buy_price r = (17 # 10)%Q /\
    ~ avg_price_is_exact_mean thirds_example b c.
Proof.
  eexists "A"%string, _, _. split.
  { split; [simpl; auto|]. split; vm_compute; reflexivity. }
  split; [reflexivity|]. split; [reflexivity|]. split; [reflexivity|].
  intros [H _]. specialize (H eq_refl). vm_compute in H. discriminate.
Qed.

(** C10. df2calculate rounds avg_buy_price and avg_sell_price to two
    decimal places as soon as they are computed, and day_trade_pnl,
    net_buy_value and net_sell_value are computed from these rounded
    averages. *)
Theorem monetary_fields_use_rounded_averages
  (df : DataFrame) (frame : AggFrame) (row : AggRow) :
  df2calculate df = Ok frame -> In row (rows frame) ->
  exists b c r,
    is_entry df b c r /\ row = round_row r /\
    avg_buy_price c
    = (if 0 <? total_buy_shares c
       then py_round (weighted_mean buy_shares (records_of df b)) 2 else 0%Q) /\
    avg_sell_price c
    = (if 0 <? total_sell_shares c
       then py_round (weighted_mean sell_shares (records_of df b)) 2 else 0%Q) /\
    (r_day_trade_pnl r, r_net_buy_value row, r_net_sell_value row)
    = monetary_fields (avg_buy_price c) (avg_sell_price c)
                      (total_buy_shares c) (total_sell_shares c) /\
    r_day_trade_pnl row = py_round (r_day_trade_pnl r) 1.
Proof.
  intros H Hin.
  destruct (df2calculate_rows df frame row H Hin) as [b [c [r [E ->]]]].
  exists b, c, r. split; [exact E|]. split; [reflexivity|].
  destruct E as [_ [Hc Hr]]. apply broker_calc_inv in Hc. apply broker_row_inv in Hr.
  destruct Hc as (Tb & _ & Ab & Ts & _ & As & D & PL & N & Nb & Ns).
  destruct Hr as (_ & _ & _ & _ & _ & _ & _ & _ & _ & _ & Vb & Vs & P).
  split; [now rewrite Ab, Tb|]. split; [now rewrite As, Ts|].
  split; [|reflexivity].
  cbn [round_row r_net_buy_value r_net_sell_value].
  unfold monetary_fields. rewrite P, PL, Vb, Vs, Nb, Ns, D, N.
  f_equal; [f_equal|].
  - destruct (0 <? total_buy_shares c - total_sell_shares c); [|reflexivity].
    now rewrite (py_round_Proper _ _ (guarded_amount _ _) 1%nat 1%nat eq_refl).
  - destruct (0 <? total_buy_shares c - total_sell_shares c); [reflexivity|].
    now rewrite (py_round_Proper _ _ (guarded_amount _ _) 1%nat 1%nat eq_refl).
Qed.

Lemma monetary_fields_use_rounded_averages_witness :
  df2calculate spec_example = Ok spec_frame /\
  In spec_row_A (rows spec_frame) /\
  exists b c r,
    is_entry spec_example b c r /\ spec_row_A = round_row r /\
    avg_buy_price c
    = (if 0 <? total_buy_shares c
       then py_round (weighted_mean buy_shares (records_of spec_example b)) 2
       else 0%Q) /\
    avg_sell_price c
    = (if 0 <? total_sell_shares c
       then py_round (weighted_mean sell_shares (records_of spec_example b)) 2
       else 0%Q) /\
    (r_day_trade_pnl r, r_net_buy_value spec_row_A, r_net_sell_value spec_row_A)
    = monetary_fields (avg_buy_price c) (avg_sell_price c)
                      (total_buy_shares c) (total_sell_shares c) /\
    r_day_trade_pnl spec_row_A = py_round (r_day_trade_pnl r) 1.
Proof.
  split; [vm_compute; reflexivity|].
  split; [simpl; auto|].
  apply (monetary_fields_use_rounded_averages spec_example spec_frame spec_row_A).
  - vm_compute; reflexivity.
  - simpl; auto.
Defined.

(** The rounding is visible in the output: with an exact buy mean of 5/3
    the frame shows a day-trade P&L of 99.0 and a net-buy value of 501,
    where the exact means would give 100 and 500. *)
Lemma rounded_averages_are_observable :
  exists b c r,
    is_entry rounding_example b c r /\
    (py_round (r_day_trade_pnl r) 1, r_net_buy_value r, r_net_sell_value r)
    = ((990 # 10)%Q, 501, 0) /\
    (let '(pnl, nb, ns) :=
       monetary_fields (weighted_mean buy_shares (records_of rounding_example b))
                       (weighted_mean sell_shares (records_of rounding_example b))
                       (total_buy_shares c) (total_sell_shares c) in
     (py_round pnl 1, nb, ns)) = ((1000 # 10)%Q, 500, 0).
Proof.
  eexists "A"%string, _, _. split.
  { split; [simpl; auto|]. split; vm_compute; reflexivity. }
  split; vm_compute; reflexivity.
Qed.





(** ** Order of the input rows *)




Section PermutedFrame.

Variables (df df' : DataFrame) (b : string).
Hypothesis Hperm : Permutation df df'.







End PermutedFrame.



(** ** Ranked views *)

Section SortDesc.

Variable key : AggRow -> Q.


Lemma insert_desc_Permutation (x : AggRow) (l : list AggRow) :
  Permutation (insert_desc key x l) (x :: l).
Proof.
  induction l as [|y l IH]; simpl; [reflexivity|].
  destruct (Qle_bool (key y) (key x)); [reflexivity|].
  rewrite IH. apply perm_swap.
Qed.

Lemma sort_desc_Permutation (l : list AggRow) : Permutation (sort_desc key l) l.
Proof.
  induction l as [|x l IH]; simpl; [constructor|].
  rewrite insert_desc_Permutation. now constructor.
Qed.

Lemma sort_desc_length (l : list AggRow) :
  List.length (sort_desc key l) = List.length l.
Proof. apply Permutation_length, sort_desc_Permutation. Qed.

Lemma insert_desc_sorted (x : AggRow) (l : list AggRow) :
  StronglySorted (key_descending key) l -> StronglySorted (key_descending key) (insert_desc key x l).
Proof.
  induction 1 as [|y l S IH F]; simpl.
  - repeat constructor.
  - destruct (Qle_bool (key y) (key x)) eqn:C.
    + apply Qle_bool_iff in C. constructor; [now constructor|].
      constructor; [exact C|].
      eapply Forall_impl; [|exact F]. intros z Hz. unfold key_descending in *.
      now apply Qle_trans with (key y).
    + assert (L : (key x <= key y)%Q).
      { apply Qlt_le_weak, Qnot_le_lt. intros N. apply Qle_bool_iff in N. congruence. }
      constructor; [exact IH|].
      rewrite insert_desc_Permutation. now constructor.
Qed.

Lemma sort_desc_sorted (l : list AggRow) : StronglySorted (key_descending key) (sort_desc key l).
Proof.
  induction l as [|x l IH]; simpl; [constructor|]. now apply insert_desc_sorted.
Qed.

Lemma firstn_sorted (k : nat) (l : list AggRow) :
  StronglySorted (key_descending key) l -> StronglySorted (key_descending key) (firstn k l).
Proof.
  intros S. revert k. induction S as [|y l S IH F]; intros [|k]; simpl;
    try constructor; auto.
  apply Forall_forall. intros z Hz. apply (proj1 (Forall_forall _ _) F).
  revert Hz. clear. revert k. induction l as [|a l IH]; intros [|k]; simpl; try tauto.
  intros [H|H]; eauto.
Qed.

Lemma map_key_sorted (l : list AggRow) :
  StronglySorted (key_descending key) l -> StronglySorted (fun x y => (y <= x)%Q) (map key l).
Proof.
  induction 1 as [|y l S IH F]; simpl; constructor; auto.
  apply Forall_forall. intros q Hq. apply in_map_iff in Hq as [z [<- Hz]].
  exact (proj1 (Forall_forall _ _) F z Hz).
Qed.

Lemma py_head_sorted (l : list AggRow) (n : Z) :
  StronglySorted (key_descending key) l -> StronglySorted (key_descending key) (py_head l n).
Proof. intros S. unfold py_head. destruct (0 <=? n); now apply firstn_sorted. Qed.

End SortDesc.

Lemma py_head_length {A : Type} (l : list A) (n : Z) :
  0 <= n -> Z.of_nat (List.length (py_head l n)) = Z.min n (Z.of_nat (List.length l)).
Proof.
  intros H. unfold py_head. destruct (Z.leb_spec 0 n); [|lia].
  rewrite length_firstn. lia.
Qed.

Lemma with_rank_length {A : Type} (l : list A) (k : Z) :
  List.length (with_rank k l) = List.length l.
Proof. revert k. induction l; simpl; intros; auto. Qed.

Lemma with_rank_fst {A : Type} (l : list A) (k : nat) :
  map fst (with_rank (Z.of_nat k) l) = map Z.of_nat (seq k (List.length l)).
Proof.
  revert k. induction l as [|a l IH]; simpl; intros k; [reflexivity|].
  f_equal. rewrite <- IH. f_equal. f_equal. lia.
Qed.

Lemma with_rank_snd {A : Type} (l : list A) (k : Z) :
  map snd (with_rank k l) = l.
Proof. revert k. induction l as [|a l IH]; simpl; intros k; congruence. Qed.

Section View.

Context {V : Type}.
Variables (key : AggRow -> Q) (value : AggRow -> V).

Lemma view_rows_length (l : list AggRow) :
  List.length (view_rows key value l) = List.length l.
Proof. unfold view_rows. now rewrite length_map, with_rank_length. Qed.

Lemma view_rows_rank (l : list AggRow) :
  map rank (view_rows key value l) = map Z.of_nat (seq 1 (List.length (view_rows key value l))).
Proof.
  rewrite view_rows_length. unfold view_rows. rewrite map_map.
  rewrite <- (with_rank_fst l 1). apply map_ext. now intros [i r].
Qed.

Lemma view_rows_key (l : list AggRow) : map v_key (view_rows key value l) = map key l.
Proof.
  unfold view_rows. rewrite map_map.
  rewrite <- (with_rank_snd l 1) at 2. rewrite map_map.
  apply map_ext. now intros [i r].
Qed.

(** The view built from the first [n] rows of the frame sorted by [key]. *)
Lemma view_rows_top (f : AggFrame) (n : Z) :
  0 <= n -> is_top_view n f (view_rows key value (py_head (sort_desc key (rows f)) n)).
Proof.
  intros H. unfold is_top_view. split; [|split].
  - now rewrite view_rows_length, py_head_length, sort_desc_length.
  - rewrite view_rows_key. apply map_key_sorted, py_head_sorted, sort_desc_sorted.
  - apply view_rows_rank.
Qed.

End View.

Lemma has_row_columns (f : AggFrame) (c : Column) :
  columns f = row_columns -> has_column f c = true.
Proof. unfold has_column. intros ->. now destruct c. Qed.

(** With all its columns a frame has its three views. *)
Lemma top20_returns (f : AggFrame) (n : Z) :
  columns f = row_columns ->
  top20_buy f n
  = Ok (view_rows r_net_buy_lots r_net_buy_value
          (py_head (sort_desc r_net_buy_lots (rows f)) n)) /\
  top20_sell f n
  = Ok (view_rows r_net_sell_lots r_net_sell_value
          (py_head (sort_desc r_net_sell_lots (rows f)) n)) /\
  top20_intraday f n
  = Ok (view_rows r_day_trade_lots (fun r => py_round (r_day_trade_pnl r) 1)
          (py_head (sort_desc r_day_trade_lots (rows f)) n)).
Proof.
  intros C. unfold top20_buy, top20_sell, top20_intraday, sort_values.
  rewrite !has_row_columns by exact C. cbn [bind].
  unfold getitem_columns, head. cbn [forallb has_column columns rows].
  rewrite C. cbn. repeat split.
Qed.

(** Whenever a view is returned it is the projection of the first rows of
    the sorted frame. *)
Lemma top20_buy_inv (f : AggFrame) (n : Z) (v : list (RankedRow Z)) :
  top20_buy f n = Ok v ->
  v = view_rows r_net_buy_lots r_net_buy_value
        (py_head (sort_desc r_net_buy_lots (rows f)) n).
Proof.
  unfold top20_buy, sort_values.
  destruct (has_column f col_net_buy_lots); [|discriminate]. cbn [bind].
  destruct (getitem_columns _ _) as [out|e] eqn:G; [|discriminate]. cbn [bind].
  unfold getitem_columns in G. destruct (forallb _ _); [|discriminate].
  injection G as <-. intros H. now injection H as <-.
Qed.

Lemma top20_sell_inv (f : AggFrame) (n : Z) (v : list (RankedRow Z)) :
  top20_sell f n = Ok v ->
  v = view_rows r_net_sell_lots r_net_sell_value
        (py_head (sort_desc r_net_sell_lots (rows f)) n).
Proof.
  unfold top20_sell, sort_values.
  destruct (has_column f col_net_sell_lots); [|discriminate]. cbn [bind].
  destruct (getitem_columns _ _) as [out|e] eqn:G; [|discriminate]. cbn [bind].
  unfold getitem_columns in G. destruct (forallb _ _); [|discriminate].
  injection G as <-. intros H. now injection H as <-.
Qed.

Lemma top20_intraday_inv (f : AggFrame) (n : Z) (v : list (RankedRow Q)) :
  top20_intraday f n = Ok v ->
  v = view_rows r_day_trade_lots (fun r => py_round (r_day_trade_pnl r) 1)
        (py_head (sort_desc r_day_trade_lots (rows f)) n).
Proof.
  unfold top20_intraday, sort_values.
  destruct (has_column f col_day_trade_lots); [|discriminate]. cbn [bind].
  destruct (getitem_columns _ _) as [out|e] eqn:G; [|discriminate]. cbn [bind].
  unfold getitem_columns in G. destruct (forallb _ _); [|discriminate].
  injection G as <-. intros H. now injection H as <-.
Qed.

(** A frame computed from at least one record carries all its columns. *)
Lemma df2calculate_columns (df : DataFrame) (frame : AggFrame) :
  df <> [] -> df2calculate df = Ok frame -> columns frame = row_columns.
Proof.
  intros N H. destruct (df2calculate_total df) as [results [M H']].
  rewrite H in H'. injection H' as ->.
  apply mapM_Forall2 in M. destruct df as [|r df]; [contradiction|].
  simpl in M. inversion M; subst. reflexivity.
Qed.

(** C6, as amended. For every aggregate table and every n >= 0, each
    ranked view returned by top20_buy, top20_sell and top20_intraday has
    length min(n, number of brokers), is sorted descending by its key
    column and carries a 1-based rank index; a table that carries its
    columns has all three views. *)
Theorem ranked_views_top_n (f : AggFrame) (n : Z) :
  0 <= n ->
  (forall v, top20_buy f n = Ok v -> is_top_view n f v) /\
  (forall v, top20_sell f n = Ok v -> is_top_view n f v) /\
  (forall v, top20_intraday f n = Ok v -> is_top_view n f v) /\
  (columns f = row_columns ->
   exists vb vs vi,
     top20_buy f n = Ok vb /\ top20_sell f n = Ok vs /\ top20_intraday f n = Ok vi).
Proof.
  intros H. split; [|split; [|split]].
  - intros v E. apply top20_buy_inv in E. subst v. now apply view_rows_top.
  - intros v E. apply top20_sell_inv in E. subst v. now apply view_rows_top.
  - intros v E. apply top20_intraday_inv in E. subst v. now apply view_rows_top.
  - intros C. destruct (top20_returns f n C) as [B [S I]].
    eexists; eexists; eexists. split; [exact B|]. split; [exact S|exact I].
Qed.

Lemma ranked_views_top_n_witness :
  0 <= 20 /\
  (forall v, top20_buy spec_frame 20 = Ok v -> is_top_view 20 spec_frame v) /\
  (forall v, top20_sell spec_frame 20 = Ok v -> is_top_view 20 spec_frame v) /\
  (forall v, top20_intraday spec_frame 20 = Ok v -> is_top_view 20 spec_frame v) /\
  (columns spec_frame = row_columns ->
   exists vb vs vi,
     top20_buy spec_frame 20 = Ok vb /\ top20_sell spec_frame 20 = Ok vs /\
     top20_intraday spec_frame 20 = Ok vi).
Proof.
  split; [lia|]. apply (ranked_views_top_n spec_frame 20). lia.
Defined.

(** C6, as stated for every n, fails for a negative n: [head(-1)] keeps
    all rows but the last, so the two-broker example has a one-row view
    while min(-1, 2) = -1. *)
Lemma negative_n_view_length :
  exists v,
    top20_buy spec_frame (-1) = Ok v /\ List.length v = 1%nat /\
    List.length (rows spec_frame) = 2%nat /\
    ~ view_length_claim spec_frame (-1).
Proof.
  eexists. split; [vm_compute; reflexivity|].
  split; [reflexivity|]. split; [reflexivity|].
  intros C. specialize (C _ ltac:(vm_compute; reflexivity)). discriminate.
Qed.

(** ** Reading and normalizing *)

(** A table with at most [header_row] rows has no header row: [csv2df]
    returns [None]. *)
Lemma csv2df_too_few_rows (rows_ : list (list string)) (header_row data_start_row : Z) :
  0 <= header_row -> Z.of_nat (List.length rows_) <= header_row ->
  csv2df rows_ header_row data_start_row = None.
Proof.
  intros H0 Hlen. unfold csv2df, csv2df_try.
  destruct rows_ as [|r rs]; [reflexivity|].
  unfold py_getitem. destruct (Z.leb_spec 0 header_row); [|lia].
  destruct (Z.ltb_spec header_row 0); [lia|].
  assert (E : nth_error (r :: rs) (Z.to_nat header_row) = None)
    by (apply nth_error_None; lia).
  now rewrite E.
Qed.

(** With the header row and no data row the result is an empty table that
    has the header as its columns, not [None]. *)
Lemma csv2df_header_only :
  csv2df header_only_csv 2 3
  = Some (mkRaw (nth 2 header_only_csv []) []).
Proof. reflexivity. Qed.

(** A frame with its columns and no row has three empty views. *)
Lemma top20_no_rows (n : Z) :
  top20_buy (mkFrame row_columns []) n = Ok [] /\
  top20_sell (mkFrame row_columns []) n = Ok [] /\
  top20_intraday (mkFrame row_columns []) n = Ok [].
Proof.
  destruct (top20_returns (mkFrame row_columns []) n eq_refl) as [B [S I]].
  rewrite B, S, I. unfold py_head. cbn [rows sort_desc fold_right].
  destruct (0 <=? n); rewrite !firstn_nil; repeat split.
Qed.

(** C9. The aggregate table computed from an empty record set has no
    column, and each of the three rankings raises KeyError on it, for
    every n. *)
Theorem empty_aggregate_ranking_raises (n : Z) :
  df2calculate [] = Ok (mkFrame [] []) /\
  top20_buy (mkFrame [] []) n = Raise KeyError /\
  top20_sell (mkFrame [] []) n = Raise KeyError /\
  top20_intraday (mkFrame [] []) n = Raise KeyError.
Proof. repeat split. Qed.

(** The same from the report file on: a report with a header and no data
    line is read and cleaned to an empty record set, whose ranking raises. *)
Lemma header_only_report_raises :
  exists raw,
    csv2df header_only_csv 2 3 = Some raw /\
    df2clean decimal_literal raw = Ok [] /\
    (f <- df2calculate [] ;; top20_buy f 20) = Raise KeyError.
Proof. eexists. repeat split. Qed.




Lemma df2clean_eq (to_numeric : string -> option Q) (df : RawFrame) :
  (11 <= List.length (header df))%nat ->
  df2clean to_numeric df = Ok (dropna (map (clean_quad to_numeric) (combined df))).
Proof.
  intros W. unfold df2clean, iloc. cbn [forallb].
  repeat match goal with
         | |- context [Nat.ltb ?a ?b] =>
             let E := fresh in
             assert (E : Nat.ltb a b = true) by (apply Nat.ltb_lt; lia);
             rewrite E; clear E
         end.
  reflexivity.
Qed.



(** The example table: the right block of the first row (price "bad") and
    the right block of the short second row are dropped; the two left
    blocks stay, with the volumes "1,000", "x" and "" read as 0. *)
Lemma raw_example_cleaned :
  df2clean decimal_literal raw_example
  = Ok [ mkTrade "A" (105 # 10) 0 0; mkTrade "C" 9 0 0 ].
Proof. reflexivity. Qed.

(** * Further properties *)

(** ** Rounding *)

Lemma round_half_even_bounds (x : Q) :
  (inject_Z (round_half_even x) - x <= 1 # 2)%Q /\
  (x - inject_Z (round_half_even x) <= 1 # 2)%Q.
Proof.
  unfold round_half_even.
  pose proof (Qfloor_le x) as L. pose proof (Qlt_floor x) as U.
  rewrite inject_Z_plus in U. change (inject_Z 1) with 1%Q in U.
  set (f := Qfloor x) in *.
  destruct (Qcompare_spec (x - inject_Z f) (1 # 2)) as [E|E|E].
  - destruct (Z.even f); [|rewrite inject_Z_plus; change (inject_Z 1) with 1%Q];
      split; lra.
  - split; lra.
  - rewrite inject_Z_plus. change (inject_Z 1) with 1%Q. split; lra.
Qed.

Lemma round_half_even_le (x y : Q) :
  (x <= y)%Q -> round_half_even x <= round_half_even y.
Proof.
  intros H. pose proof (Qfloor_resp_le x y H) as F.
  assert (Lx : Qfloor x <= round_half_even x <= Qfloor x + 1).
  { unfold round_half_even. destruct (_ ?= _)%Q; [destruct (Z.even _)| |]; lia. }
  assert (Ly : Qfloor y <= round_half_even y <= Qfloor y + 1).
  { unfold round_half_even. destruct (_ ?= _)%Q; [destruct (Z.even _)| |]; lia. }
  destruct (Z.eq_dec (Qfloor x) (Qfloor y)) as [E|N]; [|lia].
  unfold round_half_even. rewrite <- E. set (f := Qfloor x).
  destruct (Qcompare_spec (x - inject_Z f) (1 # 2)) as [A|A|A];
    destruct (Qcompare_spec (y - inject_Z f) (1 # 2)) as [B|B|B];
    try destruct (Z.even f); try lia; exfalso; lra.
Qed.

Lemma pow10_value (n : nat) : Z.pos (pow10 n) = 10 ^ Z.of_nat n.
Proof.
  induction n as [|n IH]; [reflexivity|].
  rewrite Nat2Z.inj_succ, Z.pow_succ_r by lia. rewrite <- IH.
  unfold pow10. now rewrite Nat.iter_succ.
Qed.



(** [round(., n)] is monotone. *)
Lemma py_round_le (x y : Q) (n : nat) :
  (x <= y)%Q -> (py_round x n <= py_round y n)%Q.
Proof.
  intros H. unfold py_round, Qle. simpl.
  apply Z.mul_le_mono_nonneg_r; [lia|].
  apply round_half_even_le.
  apply Qmult_le_compat_r; [exact H|]. unfold Qle; simpl; lia.
Qed.

Lemma py_round_nonneg (x : Q) (n : nat) : (0 <= x)%Q -> (0 <= py_round x n)%Q.
Proof.
  intros H. apply (py_round_le 0 x n) in H.
  assert (Z0 : (py_round 0 n == 0)%Q) by (apply py_round_zero; reflexivity).
  now rewrite Z0 in H.
Qed.


(** ** More on the aggregate table *)

Lemma unique_NoDup (l : list string) : NoDup (unique l).
Proof.
  induction l as [|x l IH]; simpl; constructor.
  - rewrite filter_In. intros [_ H]. now rewrite String.eqb_refl in H.
  - now apply NoDup_filter.
Qed.

Lemma results_brokers (df : DataFrame) (bs : list string) (results : list AggRow) :
  Forall2 (fun b r => results_entry df b = Ok r) bs results ->
  map r_broker results = bs.
Proof.
  induction 1 as [|b r bs rs E _ IH]; simpl; [reflexivity|]. f_equal; [|exact IH].
  destruct (results_entry_total df b) as [c [r' [_ [Hr E']]]].
  rewrite E in E'. injection E' as <-.
  now destruct (broker_row_inv b c r Hr) as [-> _].
Qed.

Lemma frame_brokers (df : DataFrame) (frame : AggFrame) :
  df2calculate df = Ok frame ->
  map r_broker (rows frame) = unique (map broker df).
Proof.
  intros H. destruct (df2calculate_total df) as [results [M H']].
  rewrite H in H'. injection H' as ->. rewrite rows_from_dict, map_map.
  apply mapM_Forall2, results_brokers in M. exact M.
Qed.









Lemma py_round_twice (x : Q) (n : nat) :
  (py_round (py_round x n) n == py_round x n)%Q.
Proof. now rewrite py_round_idempotent. Qed.

(** X4. The final [round(1)] of the table changes only the day-trade P&L:
    every other numeric column already holds one-decimal values (or
    integers). *)
Theorem final_round_changes_only_pnl (df : DataFrame) (frame : AggFrame) (row : AggRow) :
  df2calculate df = Ok frame -> In row (rows frame) ->
  exists b c r,
    is_entry df b c r /\ row = round_row r /\ same_but_pnl_rounded r row.
Proof.
  intros H Hin.
  destruct (df2calculate_rows df frame row H Hin) as [b [c [r [E ->]]]].
  exists b, c, r. split; [exact E|]. split; [reflexivity|].
  destruct E as [_ [_ Hr]]. apply broker_row_inv in Hr.
  destruct Hr as (_ & F2 & F3 & F4 & F5 & F6 & F7 & F8 & F9 & F10 & _).
  unfold same_but_pnl_rounded.
  cbn [round_row r_broker r_buy_lots r_buy_price r_sell_lots r_sell_price
       r_day_trade_lots r_total_buy_amount r_total_sell_amount r_net_buy_lots
       r_net_sell_lots r_net_buy_value r_net_sell_value r_day_trade_pnl].
  rewrite F2, F3, F4, F5, F6, F7, F8, F9, F10.
  repeat split; try apply py_round_twice.
  - destruct (0 <? net_shares c); [apply py_round_twice|reflexivity].
  - destruct (net_shares c <? 0); [apply py_round_twice|reflexivity].
Qed.

Lemma final_round_changes_only_pnl_witness :
  df2calculate spec_example = Ok spec_frame /\
  In spec_row_A (rows spec_frame) /\
  exists b c r,
    is_entry spec_example b c r /\ spec_row_A = round_row r /\
    same_but_pnl_rounded r spec_row_A.
Proof.
  split; [vm_compute; reflexivity|].
  split; [simpl; auto|].
  apply (final_round_changes_only_pnl spec_example spec_frame spec_row_A).
  - vm_compute; reflexivity.
  - simpl; auto.
Defined.








(** X7. In every row the day-trade lots are the smaller of the buy lots and
    the sell lots. *)
Theorem day_trade_lots_is_min_of_lots (df : DataFrame) (frame : AggFrame) (row : AggRow) :
  df2calculate df = Ok frame -> In row (rows frame) ->
  (r_day_trade_lots row <= r_buy_lots row)%Q /\
  (r_day_trade_lots row <= r_sell_lots row)%Q /\
  (r_day_trade_lots row = r_buy_lots row \/ r_day_trade_lots row = r_sell_lots row).
Proof.
  intros H Hin.
  destruct (df2calculate_rows df frame row H Hin) as [b [c [r [E ->]]]].
  destruct E as [_ [Hc Hr]]. apply broker_calc_inv in Hc. apply broker_row_inv in Hr.
  destruct Hc as (_ & _ & _ & _ & _ & _ & D & _).
  destruct Hr as (_ & F2 & _ & F4 & _ & F6 & _).
  cbn [round_row r_buy_lots r_sell_lots r_day_trade_lots].
  rewrite F2, F4, F6, D.
  assert (M : forall x y : Z, x <= y ->
              (py_round (py_round (inject_Z x / 1000) 1) 1
               <= py_round (py_round (inject_Z y / 1000) 1) 1)%Q).
  { intros x y L. apply py_round_le, py_round_le.
    apply Qmult_le_compat_r; [|discriminate]. now rewrite <- Zle_Qle. }
  destruct (Z.min_spec (total_buy_shares c) (total_sell_shares c)) as [[L ->]|[L ->]].
  - split; [apply Qle_refl|]. split; [apply M; lia|now left].
  - split; [apply M; lia|]. split; [apply Qle_refl|now right].
Qed.

Lemma day_trade_lots_is_min_of_lots_witness :
  df2calculate spec_example = Ok spec_frame /\
  In spec_row_A (rows spec_frame) /\
  (r_day_trade_lots spec_row_A <= r_buy_lots spec_row_A)%Q /\
  (r_day_trade_lots spec_row_A <= r_sell_lots spec_row_A)%Q /\
  (r_day_trade_lots spec_row_A = r_buy_lots spec_row_A \/
   r_day_trade_lots spec_row_A = r_sell_lots spec_row_A).
Proof.
  split; [vm_compute; reflexivity|].
  split; [simpl; auto|].
  apply (day_trade_lots_is_min_of_lots spec_example spec_frame spec_row_A).
  - vm_compute; reflexivity.
  - simpl; auto.
Defined.



(** X9. The two ranking keys of a row, net-buy lots and net-sell lots, are
    never negative and never both non-zero; a net seller or flat broker
    has net-buy lots 0 and a net buyer or flat broker has net-sell lots 0. *)
Theorem net_lots_exclusive (df : DataFrame) (frame : AggFrame) (row : AggRow) :
  df2calculate df = Ok frame -> In row (rows frame) ->
  exists b c r,
    is_entry df b c r /\ row = round_row r /\
    (0 <= r_net_buy_lots row)%Q /\ (0 <= r_net_sell_lots row)%Q /\
    (net_shares c <= 0 -> (r_net_buy_lots row == 0)%Q) /\
    (0 <= net_shares c -> (r_net_sell_lots row == 0)%Q) /\
    ((r_net_buy_lots row == 0)%Q \/ (r_net_sell_lots row == 0)%Q).
Proof.
  intros H Hin.
  destruct (df2calculate_rows df frame row H Hin) as [b [c [r [E ->]]]].
  exists b, c, r. split; [exact E|]. split; [reflexivity|].
  destruct E as [_ [_ Hr]]. apply broker_row_inv in Hr.
  destruct Hr as (_ & _ & _ & _ & _ & _ & _ & _ & F9 & F10 & _).
  cbn [round_row r_net_buy_lots r_net_sell_lots]. rewrite F9, F10.
  assert (Z0 : (py_round 0 1 == 0)%Q) by reflexivity.
  assert (N : forall z : Z, 0 <= z ->
              (0 <= py_round (py_round (inject_Z z / 1000) 1) 1)%Q).
  { intros z Hz. apply py_round_nonneg, py_round_nonneg.
    apply Qle_shift_div_l; [reflexivity|].
    assert (E0 : (0 * 1000 == inject_Z 0)%Q) by reflexivity.
    rewrite E0, <- Zle_Qle. exact Hz. }
  destruct (Z.ltb_spec 0 (net_shares c)) as [P|P];
    destruct (Z.ltb_spec (net_shares c) 0) as [M|M]; try lia.
  - split; [apply N; lia|]. split; [rewrite Z0; apply Qle_refl|].
    split; [intros; lia|]. split; [intros; exact Z0|]. right. exact Z0.
  - split; [rewrite Z0; apply Qle_refl|]. split; [apply N; lia|].
    split; [intros; exact Z0|]. split; [intros; lia|]. left. exact Z0.
  - split; [rewrite Z0; apply Qle_refl|]. split; [rewrite Z0; apply Qle_refl|].
    split; [intros; exact Z0|]. split; [intros; exact Z0|]. left. exact Z0.
Qed.

Lemma net_lots_exclusive_witness :
  df2calculate spec_example = Ok spec_frame /\
  In spec_row_A (rows spec_frame) /\
  exists b c r,
    is_entry spec_example b c r /\ spec_row_A = round_row r /\
    (0 <= r_net_buy_lots spec_row_A)%Q /\ (0 <= r_net_sell_lots spec_row_A)%Q /\
    (net_shares c <= 0 -> (r_net_buy_lots spec_row_A == 0)%Q) /\
    (0 <= net_shares c -> (r_net_sell_lots spec_row_A == 0)%Q) /\
    ((r_net_buy_lots spec_row_A == 0)%Q \/ (r_net_sell_lots spec_row_A == 0)%Q).
Proof.
  split; [vm_compute; reflexivity|].
  split; [simpl; auto|].
  apply (net_lots_exclusive spec_example spec_frame spec_row_A).
  - vm_compute; reflexivity.
  - simpl; auto.
Defined.

(** ** More on the ranked views *)

Lemma In_skipn {A : Type} (k : nat) (l : list A) (x : A) :
  In x (skipn k l) -> In x l.
Proof.
  intros H. rewrite <- (firstn_skipn k l). apply in_or_app. now right.
Qed.

Lemma sorted_split (key : AggRow -> Q) (l : list AggRow) (k : nat) :
  StronglySorted (key_descending key) l ->
  Forall (fun x => Forall (fun y => (key y <= key x)%Q) (skipn k l)) (firstn k l).
Proof.
  intros S. revert k. induction S as [|a l S IH F]; intros [|k]; simpl;
    try constructor.
  - apply Forall_forall. intros y Hy.
    apply (proj1 (Forall_forall _ _) F). eapply In_skipn; exact Hy.
  - apply IH.
Qed.

Lemma py_head_split {A : Type} (l : list A) (n : Z) :
  exists k, py_head l n = firstn k l.
Proof. unfold py_head. destruct (0 <=? n); eauto. Qed.

Lemma view_rows_selection {V : Type} (key : AggRow -> Q) (value : AggRow -> V)
  (f : AggFrame) (n : Z) :
  is_top_selection key value f
    (view_rows key value (py_head (sort_desc key (rows f)) n)).
Proof.
  destruct (py_head_split (sort_desc key (rows f)) n) as [k ->].
  exists (firstn k (sort_desc key (rows f))), (skipn k (sort_desc key (rows f))).
  split; [|split].
  - rewrite firstn_skipn. symmetry. apply sort_desc_Permutation.
  - reflexivity.
  - apply sorted_split, sort_desc_sorted.
Qed.

(** X10. Whatever n is, a ranked view shows rows of the table with the largest
    keys: no row left out has a larger key than a row shown. *)
Theorem ranked_views_show_largest_keys (f : AggFrame) (n : Z) :
  (forall v, top20_buy f n = Ok v ->
             is_top_selection r_net_buy_lots r_net_buy_value f v) /\
  (forall v, top20_sell f n = Ok v ->
             is_top_selection r_net_sell_lots r_net_sell_value f v) /\
  (forall v, top20_intraday f n = Ok v ->
             is_top_selection r_day_trade_lots
               (fun r => py_round (r_day_trade_pnl r) 1) f v).
Proof.
  split; [|split]; intros v E.
  - apply top20_buy_inv in E. subst v. apply view_rows_selection.
  - apply top20_sell_inv in E. subst v. apply view_rows_selection.
  - apply top20_intraday_inv in E. subst v. apply view_rows_selection.
Qed.

Lemma view_rows_broker {V : Type} (key : AggRow -> Q) (value : AggRow -> V)
  (l : list AggRow) :
  map v_broker (view_rows key value l) = map r_broker l.
Proof.
  unfold view_rows. rewrite map_map.
  rewrite <- (with_rank_snd l 1) at 2. rewrite map_map.
  apply map_ext. now intros [i r].
Qed.

Lemma py_head_all {A : Type} (l : list A) (n : Z) :
  Z.of_nat (List.length l) <= n -> py_head l n = l.
Proof.
  intros H. unfold py_head. destruct (Z.leb_spec 0 n); [|lia].
  apply firstn_all2. lia.
Qed.

(** X11. With n at least the number of brokers a view lists every broker of
    the table exactly as often as the table does. *)
Theorem ranked_views_list_every_broker (f : AggFrame) (n : Z) :
  Z.of_nat (List.length (rows f)) <= n ->
  (forall v, top20_buy f n = Ok v ->
             Permutation (map v_broker v) (map r_broker (rows f))) /\
  (forall v, top20_sell f n = Ok v ->
             Permutation (map v_broker v) (map r_broker (rows f))) /\
  (forall v, top20_intraday f n = Ok v ->
             Permutation (map v_broker v) (map r_broker (rows f))).
Proof.
  intros H.
  assert (G : forall (V : Type) key (value : AggRow -> V),
            Permutation
              (map v_broker (view_rows key value (py_head (sort_desc key (rows f)) n)))
              (map r_broker (rows f))).
  { intros V key value. rewrite view_rows_broker, py_head_all.
    - apply Permutation_map, sort_desc_Permutation.
    - now rewrite sort_desc_length. }
  split; [|split]; intros v E.
  - apply top20_buy_inv in E. subst v. apply G.
  - apply top20_sell_inv in E. subst v. apply G.
  - apply top20_intraday_inv in E. subst v. apply G.
Qed.

Lemma ranked_views_list_every_broker_witness :
  Z.of_nat (List.length (rows spec_frame)) <= 20 /\
  (forall v, top20_buy spec_frame 20 = Ok v ->
             Permutation (map v_broker v) (map r_broker (rows spec_frame))) /\
  (forall v, top20_sell spec_frame 20 = Ok v ->
             Permutation (map v_broker v) (map r_broker (rows spec_frame))) /\
  (forall v, top20_intraday spec_frame 20 = Ok v ->
             Permutation (map v_broker v) (map r_broker (rows spec_frame))).
Proof.
  split; [simpl; lia|].
  apply (ranked_views_list_every_broker spec_frame 20). simpl; lia.
Defined.

Lemma getitem_sorted_head (f : AggFrame) (n : Z) (key : AggRow -> Q)
  (cols : list Column) :
  getitem_columns (head (mkFrame (columns f) (sort_desc key (rows f))) n) cols
  = if forallb (has_column f) cols
    then Ok (mkFrame cols (py_head (sort_desc key (rows f)) n))
    else Raise KeyError.
Proof. reflexivity. Qed.

(** X12. A ranking returns its view when the table carries the seven columns
    of the view, and raises KeyError as soon as one of them is absent. *)
Theorem ranked_views_need_their_columns (f : AggFrame) (n : Z) :
  (if forallb (has_column f) buy_view_columns
   then exists v, top20_buy f n = Ok v
   else top20_buy f n = Raise KeyError) /\
  (if forallb (has_column f) sell_view_columns
   then exists v, top20_sell f n = Ok v
   else top20_sell f n = Raise KeyError) /\
  (if forallb (has_column f) intraday_view_columns
   then exists v, top20_intraday f n = Ok v
   else top20_intraday f n = Raise KeyError).
Proof.
  unfold top20_buy, top20_sell, top20_intraday, sort_values.
  fold buy_view_columns sell_view_columns intraday_view_columns.
  split; [|split].
  - destruct (forallb (has_column f) buy_view_columns) eqn:A.
    + assert (K : has_column f col_net_buy_lots = true).
      { cbn [forallb buy_view_columns] in A. rewrite !andb_true_iff in A. tauto. }
      rewrite K. cbn [bind]. rewrite getitem_sorted_head, A. cbn [bind]. eauto.
    + destruct (has_column f col_net_buy_lots); [|reflexivity].
      cbn [bind]. now rewrite getitem_sorted_head, A.
  - destruct (forallb (has_column f) sell_view_columns) eqn:A.
    + assert (K : has_column f col_net_sell_lots = true).
      { cbn [forallb sell_view_columns] in A. rewrite !andb_true_iff in A. tauto. }
      rewrite K. cbn [bind]. rewrite getitem_sorted_head, A. cbn [bind]. eauto.
    + destruct (has_column f col_net_sell_lots); [|reflexivity].
      cbn [bind]. now rewrite getitem_sorted_head, A.
  - destruct (forallb (has_column f) intraday_view_columns) eqn:A.
    + assert (K : has_column f col_day_trade_lots = true).
      { cbn [forallb intraday_view_columns] in A. rewrite !andb_true_iff in A. tauto. }
      rewrite K. cbn [bind]. rewrite getitem_sorted_head, A. cbn [bind]. eauto.
    + destruct (has_column f col_day_trade_lots); [|reflexivity].
      cbn [bind]. now rewrite getitem_sorted_head, A.
Qed.

(** X13. For a negative n a view drops the last -n rows of the ranking: its
    length is max(0, number of brokers + n). *)
Theorem ranked_views_negative_n (f : AggFrame) (n : Z) :
  n < 0 ->
  (forall v, top20_buy f n = Ok v ->
             Z.of_nat (List.length v) = Z.max 0 (Z.of_nat (List.length (rows f)) + n)) /\
  (forall v, top20_sell f n = Ok v ->
             Z.of_nat (List.length v) = Z.max 0 (Z.of_nat (List.length (rows f)) + n)) /\
  (forall v, top20_intraday f n = Ok v ->
             Z.of_nat (List.length v) = Z.max 0 (Z.of_nat (List.length (rows f)) + n)).
Proof.
  intros H.
  assert (G : forall (V : Type) key (value : AggRow -> V),
            Z.of_nat (List.length
                        (view_rows key value (py_head (sort_desc key (rows f)) n)))
            = Z.max 0 (Z.of_nat (List.length (rows f)) + n)).
  { intros V key value. rewrite view_rows_length. unfold py_head.
    destruct (Z.leb_spec 0 n); [lia|].
    rewrite length_firstn, sort_desc_length. lia. }
  split; [|split]; intros v E.
  - apply top20_buy_inv in E. subst v. apply G.
  - apply top20_sell_inv in E. subst v. apply G.
  - apply top20_intraday_inv in E. subst v. apply G.
Qed.

Lemma ranked_views_negative_n_witness :
  -1 < 0 /\
  (forall v, top20_buy spec_frame (-1) = Ok v ->
             Z.of_nat (List.length v)
             = Z.max 0 (Z.of_nat (List.length (rows spec_frame)) + -1)) /\
  (forall v, top20_sell spec_frame (-1) = Ok v ->
             Z.of_nat (List.length v)
             = Z.max 0 (Z.of_nat (List.length (rows spec_frame)) + -1)) /\
  (forall v, top20_intraday spec_frame (-1) = Ok v ->
             Z.of_nat (List.length v)
             = Z.max 0 (Z.of_nat (List.length (rows spec_frame)) + -1)).
Proof.
  split; [lia|]. apply (ranked_views_negative_n spec_frame (-1)). lia.
Defined.

(** ** More on reading and normalizing *)

(** X14. A table with fewer than eleven columns makes [df2clean] raise
    IndexError: one of the two positional selections is out of bounds. *)
Theorem df2clean_needs_eleven_columns
  (to_numeric : string -> option Q) (df : RawFrame) :
  (List.length (header df) < 11)%nat ->
  df2clean to_numeric df = Raise IndexError.
Proof.
  intros W. unfold df2clean, iloc. cbn [forallb].
  destruct (Nat.ltb_spec 10 (List.length (header df))) as [H|H]; [lia|].
  rewrite !andb_false_r.
  destruct (_ && _)%bool; reflexivity.
Qed.

Lemma df2clean_needs_eleven_columns_witness :
  (List.length (header narrow_example) < 11)%nat /\
  df2clean decimal_literal narrow_example = Raise IndexError.
Proof.
  split; [simpl; lia|].
  apply (df2clean_needs_eleven_columns decimal_literal narrow_example).
  simpl; lia.
Defined.

Lemma dropna_app (a b : list (option TradeRecord)) :
  dropna (a ++ b) = dropna a ++ dropna b.
Proof.
  induction a as [|[x|] a IH]; simpl; [reflexivity| |]; now rewrite ?IH.
Qed.

Lemma dropna_length (a : list (option TradeRecord)) :
  (List.length (dropna a) <= List.length a)%nat.
Proof. induction a as [|[x|] a IH]; simpl; lia. Qed.

(** The record set lists the records kept from the left blocks, in row
    order, before those kept from the right blocks, and holds at most two
    records per row of the table. *)
Theorem df2clean_left_then_right
  (to_numeric : string -> option Q) (df : RawFrame) :
  (11 <= List.length (header df))%nat ->
  exists left_records right_records,
    df2clean to_numeric df = Ok (left_records ++ right_records) /\
    left_records = dropna (map (clean_quad to_numeric) (map (block 1) (data df))) /\
    right_records = dropna (map (clean_quad to_numeric) (map (block 7) (data df))) /\
    (List.length left_records <= List.length (data df))%nat /\
    (List.length right_records <= List.length (data df))%nat.
Proof.
  intros W. eexists; eexists.
  split; [rewrite (df2clean_eq to_numeric df W); unfold combined;
          rewrite map_app, dropna_app; reflexivity|].
  split; [reflexivity|]. split; [reflexivity|].
  split; (eapply Nat.le_trans; [apply dropna_length|]; now rewrite !length_map).
Qed.

Lemma df2clean_left_then_right_witness :
  (11 <= List.length (header raw_example))%nat /\
  exists left_records right_records,
    df2clean decimal_literal raw_example = Ok (left_records ++ right_records) /\
    left_records
    = dropna (map (clean_quad decimal_literal) (map (block 1) (data raw_example))) /\
    right_records
    = dropna (map (clean_quad decimal_literal) (map (block 7) (data raw_example))) /\
    (List.length left_records <= List.length (data raw_example))%nat /\
    (List.length right_records <= List.length (data raw_example))%nat.
Proof.
  split; [simpl; lia|].
  apply (df2clean_left_then_right decimal_literal raw_example). simpl; lia.
Defined.

Lemma make_frame_eq (rows_ : list (list string)) (labels : list string) :
  make_frame rows_ labels
  = match rows_ with
    | [] => Ok (mkRaw labels [])
    | _ => if Nat.eqb (widest rows_) (List.length labels)
           then Ok (mkRaw labels rows_) else Raise ValueError
    end.
Proof. reflexivity. Qed.

Lemma py_getitem_nonneg {A : Type} (l : list A) (i : Z) :
  0 <= i ->
  py_getitem l i = match nth_error l (Z.to_nat i) with
                   | Some a => Ok a
                   | None => Raise IndexError
                   end.
Proof.
  intros H. unfold py_getitem. destruct (Z.leb_spec 0 i); [|lia].
  destruct (Z.ltb_spec i 0); [lia|reflexivity].
Qed.

Lemma py_slice_from_nonneg {A : Type} (l : list A) (i : Z) :
  0 <= i -> py_slice_from l i = skipn (Z.to_nat i) l.
Proof. intros H. unfold py_slice_from. destruct (Z.leb_spec 0 i); [reflexivity|lia]. Qed.

(** X15. [csv2df] returns a table exactly when the header row exists and the
    data rows, if there are any, have a widest row of the width of the
    header; the table then has row [header_row] as its labels and the rows
    from [data_start_row] on as its data. *)
Theorem csv2df_returns_table_iff
  (rows_ : list (list string)) (header_row data_start_row : Z) (df : RawFrame) :
  0 <= header_row -> 0 <= data_start_row ->
  csv2df rows_ header_row data_start_row = Some df <->
  nth_error rows_ (Z.to_nat header_row) = Some (header df) /\
  data df = skipn (Z.to_nat data_start_row) rows_ /\
  (data df = [] \/ widest (data df) = List.length (header df)).
Proof.
  intros Hh Hd. unfold csv2df, csv2df_try.
  destruct rows_ as [|r0 rs].
  { split; [discriminate|]. intros [H _]. now destruct (Z.to_nat header_row). }
  rewrite (py_getitem_nonneg _ _ Hh).
  set (rows_ := r0 :: rs).
  destruct (nth_error rows_ (Z.to_nat header_row)) as [hd|] eqn:N; cbn [bind].
  - rewrite (py_slice_from_nonneg _ _ Hd), make_frame_eq.
    destruct (skipn (Z.to_nat data_start_row) rows_) as [|d ds] eqn:S; cbn [bind].
    + split.
      * intros E. injection E as <-. simpl. auto.
      * intros [E1 [E2 _]]. destruct df as [h dt]. simpl in *. congruence.
    + destruct (Nat.eqb_spec (widest (d :: ds)) (List.length hd)) as [W|W]; cbn [bind].
      * split.
        -- intros E. injection E as <-. simpl. auto.
        -- intros [E1 [E2 _]]. destruct df as [h dt]. simpl in *. congruence.
      * split; [discriminate|].
        intros [E1 [E2 [E3|E3]]]; destruct df as [h dt]; simpl in *.
        -- congruence.
        -- injection E1 as <-. subst dt. contradiction.
  - split; [discriminate|]. intros [E _]. discriminate.
Qed.

Lemma csv2df_returns_table_iff_witness :
  0 <= 2 /\ 0 <= 3 /\
  (csv2df one_line_csv 2 3
   = Some (mkRaw (nth 2 one_line_csv []) (skipn 3 one_line_csv)) <->
   nth_error one_line_csv (Z.to_nat 2)
   = Some (header (mkRaw (nth 2 one_line_csv []) (skipn 3 one_line_csv))) /\
   data (mkRaw (nth 2 one_line_csv []) (skipn 3 one_line_csv))
   = skipn (Z.to_nat 3) one_line_csv /\
   (data (mkRaw (nth 2 one_line_csv []) (skipn 3 one_line_csv)) = [] \/
    widest (data (mkRaw (nth 2 one_line_csv []) (skipn 3 one_line_csv)))
    = List.length (header (mkRaw (nth 2 one_line_csv []) (skipn 3 one_line_csv))))).
Proof.
  split; [lia|]. split; [lia|].
  apply (csv2df_returns_table_iff one_line_csv 2 3
           (mkRaw (nth 2 one_line_csv []) (skipn 3 one_line_csv))); lia.
Defined.

Lemma widest_ge (rows_ : list (list string)) (row : list string) :
  In row rows_ -> (List.length row <= widest rows_)%nat.
Proof.
  unfold widest. induction rows_ as [|r rs IH]; simpl; [tauto|].
  intros [<-|H]; [lia|]. specialize (IH H). lia.
Qed.

Lemma widest_lt (rows_ : list (list string)) (w : nat) :
  rows_ <> [] -> (forall row, In row rows_ -> (List.length row < w)%nat) ->
  (widest rows_ < w)%nat.
Proof.
  unfold widest. induction rows_ as [|r rs IH]; [contradiction|]. intros _ H.
  simpl. destruct rs as [|r' rs'].
  - simpl. specialize (H r (or_introl eq_refl)). lia.
  - assert (A : (fold_right Nat.max 0 (map (@List.length string) (r' :: rs')) < w)%nat)
      by (apply IH; [discriminate|intros; apply H; now right]).
    specialize (H r (or_introl eq_refl)). lia.
Qed.

(** X16. One data row with more fields than the header, or data rows that are
    all shorter than the header, make [csv2df] give up the whole file and
    return None. *)
Theorem csv2df_rejects_width_mismatch
  (rows_ : list (list string)) (header_row data_start_row : Z) (hd : list string) :
  0 <= header_row -> 0 <= data_start_row ->
  nth_error rows_ (Z.to_nat header_row) = Some hd ->
  (exists row, In row (skipn (Z.to_nat data_start_row) rows_)
               /\ (List.length hd < List.length row)%nat)
  \/ (skipn (Z.to_nat data_start_row) rows_ <> []
      /\ forall row, In row (skipn (Z.to_nat data_start_row) rows_) ->
                     (List.length row < List.length hd)%nat) ->
  csv2df rows_ header_row data_start_row = None.
Proof.
  intros Hh Hd N M.
  destruct (csv2df rows_ header_row data_start_row) as [df|] eqn:E; [|reflexivity].
  exfalso. apply (csv2df_returns_table_iff rows_ _ _ df Hh Hd) in E.
  destruct E as [E1 [E2 E3]]. rewrite N in E1. injection E1 as E1.
  rewrite <- E2 in M. rewrite E1 in M.
  destruct M as [[row [Hin L]]|[Ne L]].
  - destruct E3 as [E3|E3]; [rewrite E3 in Hin; contradiction|].
    apply widest_ge in Hin. lia.
  - destruct E3 as [E3|E3]; [contradiction|].
    pose proof (widest_lt _ _ Ne L). lia.
Qed.

Lemma csv2df_rejects_width_mismatch_witness :
  0 <= 2 /\ 0 <= 3 /\
  nth_error [ ["t"]; []; ["a"; "b"]; ["1"; "2"; "3"] ]%string (Z.to_nat 2)
  = Some ["a"; "b"]%string /\
  ((exists row,
       In row (skipn (Z.to_nat 3) [ ["t"]; []; ["a"; "b"]; ["1"; "2"; "3"] ]%string)
       /\ (List.length ["a"; "b"]%string < List.length row)%nat)
   \/ (skipn (Z.to_nat 3) [ ["t"]; []; ["a"; "b"]; ["1"; "2"; "3"] ]%string <> []
       /\ forall row,
            In row (skipn (Z.to_nat 3) [ ["t"]; []; ["a"; "b"]; ["1"; "2"; "3"] ]%string) ->
            (List.length row < List.length ["a"; "b"]%string)%nat)) /\
  csv2df [ ["t"]; []; ["a"; "b"]; ["1"; "2"; "3"] ]%string 2 3 = None.
Proof.
  assert (M : (exists row,
       In row (skipn (Z.to_nat 3) [ ["t"]; []; ["a"; "b"]; ["1"; "2"; "3"] ]%string)
       /\ (List.length ["a"; "b"]%string < List.length row)%nat)
   \/ (skipn (Z.to_nat 3) [ ["t"]; []; ["a"; "b"]; ["1"; "2"; "3"] ]%string <> []
       /\ forall row,
            In row (skipn (Z.to_nat 3) [ ["t"]; []; ["a"; "b"]; ["1"; "2"; "3"] ]%string) ->
            (List.length row < List.length ["a"; "b"]%string)%nat)).
  { left. exists ["1"; "2"; "3"]%string. split; [simpl; auto|simpl; lia]. }
  split; [lia|]. split; [lia|]. split; [reflexivity|]. split; [exact M|].
  apply (csv2df_rejects_width_mismatch _ 2 3 ["a"; "b"]%string);
    [lia|lia|reflexivity|exact M].
Defined.

(** X17. A file with fewer than three rows makes the application raise
    AttributeError: [csv2df] returns None and [df2clean] is called on it
    unchecked. *)
Theorem app_load_crashes_on_short_file
  (to_numeric : string -> option Q) (rows_ : list (list string)) :
  (List.length rows_ <= 2)%nat ->
  app_load to_numeric rows_ = Crashed AttributeError.
Proof.
  intros H. unfold app_load.
  rewrite (csv2df_too_few_rows rows_ 2 3); [reflexivity|lia|lia].
Qed.

Lemma app_load_crashes_on_short_file_witness :
  (List.length [ ["title"]; [] ]%string <= 2)%nat /\
  app_load decimal_literal [ ["title"]; [] ]%string = Crashed AttributeError.
Proof.
  split; [simpl; lia|].
  apply (app_load_crashes_on_short_file decimal_literal). simpl; lia.
Defined.



(** ** Formatting tools *)

(** X19. [format_broker_name] changes nothing in a name it has already
    formatted. *)
Theorem format_broker_name_idempotent (name : PyValue) :
  format_broker_name (PyText (format_broker_name name)) = format_broker_name name.
Proof.
  destruct name as [| |s|]; try reflexivity. simpl.
  induction s as [|ch s IH]; simpl; [reflexivity|].
  destruct (kept_in_name ch) eqn:K; simpl; [rewrite K; f_equal|]; exact IH.
Qed.

Lemma kept_in_name_spec (ch : N) :
  kept_in_name ch = true ->
  (ch = 40 \/ ch = 41 \/ ch = 45 \/ 0x3000 <= ch)%N.
Proof.
  unfold kept_in_name, in_range, pystr. cbn [existsb map list_ascii_of_string].
  rewrite !orb_true_iff, !andb_true_iff, !N.leb_le, !N.eqb_eq.
  change (N_of_ascii "(") with 40%N. change (N_of_ascii ")") with 41%N.
  change (N_of_ascii "-") with 45%N. lia.
Qed.

(** X20. The formatted name keeps characters of the name only, and of the
    ASCII ones only the parentheses and the hyphen: the digits, Latin
    letters and blanks of a broker code are removed. *)
Theorem format_broker_name_drops_ascii (s : PyStr) (ch : N) :
  In ch (format_broker_name (PyText s)) ->
  In ch s /\ ((ch < 128)%N -> ch = 40%N \/ ch = 41%N \/ ch = 45%N).
Proof.
  simpl. rewrite filter_In. intros [H K]. split; [exact H|].
  apply kept_in_name_spec in K. lia.
Qed.

Lemma format_broker_name_drops_ascii_witness :
  In 40%N (format_broker_name (PyText label_example)) /\
  In 40%N label_example /\ ((40 < 128)%N -> 40%N = 40%N \/ 40%N = 41%N \/ 40%N = 45%N).
Proof.
  assert (H : In 40%N (format_broker_name (PyText label_example)))
    by (vm_compute; tauto).
  split; [exact H|].
  exact (format_broker_name_drops_ascii label_example 40%N H).
Defined.

Lemma unpystr_pystr (s : string) : unpystr (pystr s) = s.
Proof.
  unfold unpystr, pystr. rewrite map_map.
  rewrite (map_ext _ (fun a => a)) by apply ascii_N_embedding.
  rewrite map_id. apply string_of_list_ascii_of_string.
Qed.

Lemma int_of_pystr_str_int (z : Z) : int_of_pystr (str_int z) = Some z.
Proof.
  unfold int_of_pystr, str_int. rewrite unpystr_pystr.
  destruct z as [|p|p]; [reflexivity| |].
  - rewrite NilZero.isi; [simpl; f_equal; apply (DecimalZ.of_to (Z.pos p))| |];
      simpl; intros [=E]; now apply (DecimalPos.Unsigned.to_uint_nonnil p).
  - rewrite NilZero.isi; [simpl; f_equal; apply (DecimalZ.of_to (Z.neg p))| |];
      simpl; intros [=E]; now apply (DecimalPos.Unsigned.to_uint_nonnil p).
Qed.

Lemma str_int_inj (a b : Z) : str_int a = str_int b -> a = b.
Proof.
  intros E. pose proof (int_of_pystr_str_int a) as A.
  rewrite E, int_of_pystr_str_int in A. now injection A.
Qed.

Lemma round_half_even_zero_iff (x : Q) :
  round_half_even x = 0 <-> (- (1 # 2) <= x <= 1 # 2)%Q.
Proof.
  split.
  - intros E. destruct (round_half_even_bounds x) as [A B].
    rewrite E in A, B. change (inject_Z 0) with 0%Q in A, B. split; lra.
  - intros [L U].
    destruct (Qlt_le_dec x (1 # 2)) as [U'|U'].
    + destruct (Qlt_le_dec (- (1 # 2)) x) as [L'|L'].
      * destruct (round_half_even_bounds x) as [A B].
        assert (A' : (inject_Z (round_half_even x) < inject_Z 1)%Q)
          by (change (inject_Z 1) with 1%Q; lra).
        assert (B' : (inject_Z (-1) < inject_Z (round_half_even x))%Q)
          by (change (inject_Z (-1)) with (-1)%Q; lra).
        rewrite <- Zlt_Qlt in A', B'. lia.
      * assert (E : (x == - (1 # 2))%Q) by lra.
        now rewrite (round_half_even_Proper _ _ E).
    + assert (E : (x == 1 # 2)%Q) by lra.
      now rewrite (round_half_even_Proper _ _ E).
Qed.

(** X21. A numeric volume is shown as "0" exactly when it lies between -0.5
    and 0.5, bounds included: half a lot is rounded to the even integer 0. *)
Theorem format_volume_int_zero_text (py_float : PyStr -> option Q) (x : Q) :
  format_volume_int py_float (PyNumber x) = pystr "0" <->
  (- (1 # 2) <= x <= 1 # 2)%Q.
Proof.
  unfold format_volume_int. cbn [parse_formatted_number].
  destruct (Qeq_bool x 0) eqn:E.
  - apply Qeq_bool_eq in E. split; [intros _; lra|reflexivity].
  - rewrite <- round_half_even_zero_iff. split.
    + intros H. now apply (str_int_inj _ 0).
    + intros ->. reflexivity.
Qed.

Lemma uint_chars (d : Decimal.uint) :
  forallb is_int_char (pystr (NilEmpty.string_of_uint d)) = true.
Proof. induction d; simpl; auto. Qed.

Lemma str_int_chars (z : Z) : forallb is_int_char (str_int z) = true.
Proof.
  unfold str_int. destruct (Z.to_int z) as [d|d]; simpl.
  - destruct d; try reflexivity; apply (uint_chars (_ d)) || simpl; apply uint_chars.
  - destruct d; try reflexivity; simpl; apply uint_chars.
Qed.

Lemma is_int_char_cases (ch : N) :
  is_int_char ch = true ->
  In ch [45; 48; 49; 50; 51; 52; 53; 54; 55; 56; 57]%N.
Proof.
  unfold is_int_char, in_range.
  rewrite orb_true_iff, andb_true_iff, N.eqb_eq, !N.leb_le. intros H. simpl.
  assert (C : (ch = 45 \/ ch = 48 \/ ch = 49 \/ ch = 50 \/ ch = 51 \/ ch = 52
               \/ ch = 53 \/ ch = 54 \/ ch = 55 \/ ch = 56 \/ ch = 57)%N) by lia.
  intuition auto.
Qed.

Lemma int_char_plain (ch : N) :
  is_int_char ch = true ->
  is_space ch = false /\ N.eqb ch 44 = false /\ N.eqb ch 40 = false
  /\ N.eqb 24373 ch = false.
Proof.
  intros H. apply is_int_char_cases in H. simpl in H.
  repeat (destruct H as [<-|H]; [repeat split|]); contradiction.
Qed.

Section IntText.

Variable s : PyStr.
Hypothesis Hs : forallb is_int_char s = true.

Lemma int_text_lstrip : lstrip s = s.
Proof.
  destruct s as [|ch s']; [reflexivity|]. cbn [lstrip forallb] in *.
  apply andb_true_iff in Hs as [H _].
  now destruct (int_char_plain ch H) as [-> _].
Qed.

Lemma int_text_no_comma : remove_char 44 s = s.
Proof.
  unfold remove_char. induction s as [|ch s' IH]; [reflexivity|].
  cbn [filter forallb] in *.
  apply andb_true_iff in Hs as [H R].
  destruct (int_char_plain ch H) as (_ & -> & _). cbn [negb]. f_equal. now apply IH.
Qed.

Lemma int_text_no_paren : startswith_char 40 s = false.
Proof.
  destruct s as [|ch s']; [reflexivity|]. cbn [startswith_char forallb] in *.
  apply andb_true_iff in Hs as [H _].
  now destruct (int_char_plain ch H) as (_ & _ & -> & _).
Qed.

Lemma int_text_no_lot_sign : contains_char 24373 s = false.
Proof.
  unfold contains_char. induction s as [|ch s' IH]; [reflexivity|].
  cbn [existsb forallb] in *.
  apply andb_true_iff in Hs as [H R].
  destruct (int_char_plain ch H) as (_ & _ & _ & ->). cbn [orb]. now apply IH.
Qed.

End IntText.

Lemma int_text_strip (s : PyStr) : forallb is_int_char s = true -> strip s = s.
Proof.
  intros H. unfold strip. rewrite (int_text_lstrip s H).
  rewrite (int_text_lstrip (rev s)); [apply rev_involutive|].
  rewrite forallb_forall in *. intros ch Hc. apply H. now apply in_rev.
Qed.

Lemma parse_int_text (py_float : PyStr -> option Q) (z : Z) :
  py_float (str_int z) = Some (inject_Z z) ->
  parse_formatted_number py_float (PyText (str_int z)) = inject_Z z.
Proof.
  intros F. pose proof (str_int_chars z) as C.
  cbn [parse_formatted_number].
  rewrite (int_text_strip _ C), (int_text_no_comma _ C), (int_text_no_paren _ C),
    (int_text_no_lot_sign _ C).
  cbn [andb]. unfold float_or_zero. now rewrite F.
Qed.

(** X22. Reading back a volume text: when [float] reads decimal integers,
    [parse_formatted_number] of the text written by [format_volume_int]
    for a number is that number rounded to the nearest integer, ties to
    even. *)
Theorem parse_of_format_volume_int (py_float : PyStr -> option Q) (x : Q) :
  (forall z, py_float (str_int z) = Some (inject_Z z)) ->
  parse_formatted_number py_float
    (PyText (format_volume_int py_float (PyNumber x)))
  = inject_Z (round_half_even x).
Proof.
  intros F. unfold format_volume_int. cbn [parse_formatted_number].
  destruct (Qeq_bool x 0) eqn:E.
  - apply Qeq_bool_eq in E. rewrite (round_half_even_Proper _ _ E).
    change (pystr "0") with (str_int 0). now apply parse_int_text.
  - now apply parse_int_text.
Qed.

Lemma float_of_int_text_reads (z : Z) :
  float_of_int_text (str_int z) = Some (inject_Z z).
Proof. unfold float_of_int_text. now rewrite int_of_pystr_str_int. Defined.

Lemma parse_of_format_volume_int_witness :
  (forall z, float_of_int_text (str_int z) = Some (inject_Z z)) /\
  parse_formatted_number float_of_int_text
    (PyText (format_volume_int float_of_int_text (PyNumber (25 # 10))))
  = inject_Z (round_half_even (25 # 10)).
Proof.
  split; [exact float_of_int_text_reads|].
  exact (parse_of_format_volume_int float_of_int_text (25 # 10)
           float_of_int_text_reads).
Defined.

(** ** The comparison chart *)

Section Chart.

Variable py_float : PyStr -> option Q.
Variable code_points : string -> PyStr.

Lemma Qle_bool_false_nonzero (x : Q) : Qle_bool x 0 = false -> Qeq_bool x 0 = false.
Proof.
  intros H. apply not_true_is_false. intros E. apply Qeq_bool_eq in E.
  assert (L : Qle_bool x 0 = true) by (apply Qle_bool_iff; rewrite E; apply Qle_refl).
  congruence.
Qed.

Lemma buy_side_shape (scale y : Q) (row : RankedRow Z) :
  exists texts,
    buy_side py_float code_points scale y row
    = Ok (Barh y (bar_width_of scale (v_key row))
               (0.5 - bar_width_of scale (v_key row)) 0.7 "#A02C2C" :: texts)
    /\ filter is_bar texts = [].
Proof.
  unfold buy_side, format_volume_with_price_label, bar_width_of.
  cbv beta zeta iota.
  destruct (Qle_bool scale 0) eqn:S; cbn [bind].
  - eexists. split; [reflexivity|].
    destruct (if Qle_bool (v_buy_price row) 0 then _ else _); reflexivity.
  - rewrite truediv_Ok by now apply Qle_bool_false_nonzero. cbn [bind].
    eexists. split; [reflexivity|].
    destruct (if Qle_bool (v_buy_price row) 0 then _ else _); reflexivity.
Qed.

Lemma sell_side_shape (scale y : Q) (row : RankedRow Z) :
  exists texts,
    sell_side py_float code_points scale y row
    = Ok (Barh y (bar_width_of scale (v_key row)) 0.5 0.7 "#2E7D32" :: texts)
    /\ filter is_bar texts = [].
Proof.
  unfold sell_side, format_volume_with_price_label, bar_width_of.
  cbv beta zeta iota.
  destruct (Qle_bool scale 0) eqn:S; cbn [bind].
  - eexists. split; [reflexivity|].
    destruct (if Qle_bool (v_sell_price row) 0 then _ else _); reflexivity.
  - rewrite truediv_Ok by now apply Qle_bool_false_nonzero. cbn [bind].
    eexists. split; [reflexivity|].
    destruct (if Qle_bool (v_sell_price row) 0 then _ else _); reflexivity.
Qed.

Lemma iloc_row_in_range {A : Type} (l : list A) (i : Z) :
  0 <= i < Z.of_nat (List.length l) ->
  exists a, nth_error l (Z.to_nat i) = Some a /\ iloc_row l i = Ok a.
Proof.
  intros H. unfold iloc_row. rewrite py_getitem_nonneg by lia.
  destruct (nth_error l (Z.to_nat i)) as [a|] eqn:E; [eauto|].
  apply nth_error_None in E. lia.
Qed.

Lemma draw_row_shape (buy_top_raw sell_top_raw : list (RankedRow Z))
  (num_buy num_sell : Z) (scale : Q) (i : Z) :
  0 <= i ->
  num_buy <= Z.of_nat (List.length buy_top_raw) ->
  num_sell <= Z.of_nat (List.length sell_top_raw) ->
  exists l,
    draw_row py_float code_points buy_top_raw sell_top_raw num_buy num_sell scale i
    = Ok l
    /\ filter is_bar l = row_bars buy_top_raw sell_top_raw num_buy num_sell scale i.
Proof.
  intros Hi Hb Hs. unfold draw_row, row_bars. cbv zeta.
  assert (B : exists b,
    (if i <? num_buy
     then row <- iloc_row buy_top_raw i ;;
          buy_side py_float code_points scale (inject_Z i + 0.5)%Q row
     else Ok []) = Ok b
    /\ filter is_bar b
       = (if i <? num_buy
          then match nth_error buy_top_raw (Z.to_nat i) with
               | Some row =>
                   [ Barh (inject_Z i + 0.5)%Q (bar_width_of scale (v_key row))
                          (0.5 - bar_width_of scale (v_key row)) 0.7 "#A02C2C" ]
               | None => []
               end
          else [])).
  { destruct (Z.ltb_spec i num_buy) as [L|L]; [|exists []; auto].
    destruct (iloc_row_in_range buy_top_raw i) as [row [N ->]]; [lia|].
    rewrite N. cbn [bind].
    destruct (buy_side_shape scale (inject_Z i + 0.5)%Q row) as [texts [-> F]].
    eexists. split; [reflexivity|]. cbn [filter is_bar]. now rewrite F. }
  assert (S : exists s,
    (if i <? num_sell
     then row <- iloc_row sell_top_raw i ;;
          sell_side py_float code_points scale (inject_Z i + 0.5)%Q row
     else Ok []) = Ok s
    /\ filter is_bar s
       = (if i <? num_sell
          then match nth_error sell_top_raw (Z.to_nat i) with
               | Some row =>
                   [ Barh (inject_Z i + 0.5)%Q (bar_width_of scale (v_key row))
                          0.5 0.7 "#2E7D32" ]
               | None => []
               end
          else [])).
  { destruct (Z.ltb_spec i num_sell) as [L|L]; [|exists []; auto].
    destruct (iloc_row_in_range sell_top_raw i) as [row [N ->]]; [lia|].
    rewrite N. cbn [bind].
    destruct (sell_side_shape scale (inject_Z i + 0.5)%Q row) as [texts [-> F]].
    eexists. split; [reflexivity|]. cbn [filter is_bar]. now rewrite F. }
  destruct B as [b [-> Fb]]. destruct S as [s [-> Fs]]. cbn [bind].
  eexists. split; [reflexivity|]. now rewrite filter_app, Fb, Fs.
Qed.

Lemma draw_rows_shape (buy_top_raw sell_top_raw : list (RankedRow Z))
  (num_buy num_sell : Z) (scale : Q) (range : list Z) :
  Forall (fun i => 0 <= i) range ->
  num_buy <= Z.of_nat (List.length buy_top_raw) ->
  num_sell <= Z.of_nat (List.length sell_top_raw) ->
  exists drawn,
    mapM (draw_row py_float code_points buy_top_raw sell_top_raw num_buy num_sell
                   scale) range = Ok drawn
    /\ filter is_bar (List.concat drawn)
       = List.concat (map (row_bars buy_top_raw sell_top_raw num_buy num_sell scale)
                          range).
Proof.
  intros R Hb Hs. induction R as [|i range Hi _ IH]; simpl.
  - exists []. auto.
  - destruct (draw_row_shape buy_top_raw sell_top_raw num_buy num_sell scale i
                Hi Hb Hs) as [l [-> F]].
    destruct IH as [drawn [-> G]]. cbn [bind].
    eexists. split; [reflexivity|]. cbn [List.concat].
    now rewrite filter_app, F, G.
Qed.

Lemma py_min_le_l (a b : Z) : py_min a b <= a.
Proof. rewrite py_min_spec. lia. Qed.

Lemma scale_eq (buy_top_raw sell_top_raw : list (RankedRow Z)) (n_items : Z) :
  match
    (if 0 <? py_min (Z.of_nat (List.length buy_top_raw)) n_items
     then map Qabs (map v_key (py_head buy_top_raw
                                 (py_min (Z.of_nat (List.length buy_top_raw)) n_items)))
     else [])
    ++ (if 0 <? py_min (Z.of_nat (List.length sell_top_raw)) n_items
        then map Qabs (map v_key (py_head sell_top_raw
                                    (py_min (Z.of_nat (List.length sell_top_raw)) n_items)))
        else [])
  with
  | [] => 1%Q
  | _ =>
      if Qle_bool
           (list_max
              ((if 0 <? py_min (Z.of_nat (List.length buy_top_raw)) n_items
                then map Qabs (map v_key (py_head buy_top_raw
                        (py_min (Z.of_nat (List.length buy_top_raw)) n_items)))
                else [])
               ++ (if 0 <? py_min (Z.of_nat (List.length sell_top_raw)) n_items
                   then map Qabs (map v_key (py_head sell_top_raw
                           (py_min (Z.of_nat (List.length sell_top_raw)) n_items)))
                   else []))) 0
      then 1%Q
      else list_max
             ((if 0 <? py_min (Z.of_nat (List.length buy_top_raw)) n_items
               then map Qabs (map v_key (py_head buy_top_raw
                       (py_min (Z.of_nat (List.length buy_top_raw)) n_items)))
               else [])
              ++ (if 0 <? py_min (Z.of_nat (List.length sell_top_raw)) n_items
                  then map Qabs (map v_key (py_head sell_top_raw
                          (py_min (Z.of_nat (List.length sell_top_raw)) n_items)))
                  else []))
  end = volume_scale buy_top_raw sell_top_raw n_items.
Proof.
  unfold volume_scale, shown_volumes, shown_rows. cbv zeta.
  destruct (0 <? py_min (Z.of_nat (List.length buy_top_raw)) n_items);
    destruct (0 <? py_min (Z.of_nat (List.length sell_top_raw)) n_items);
    reflexivity.
Qed.

(** Unless both views are empty the figure is drawn, and its bars are the
    bars of its rows. *)
Lemma create_visualization_bars (buy_top_raw sell_top_raw : list (RankedRow Z))
  (date : PyStr) (n_items : Z) :
  buy_top_raw <> [] \/ sell_top_raw <> [] ->
  exists fig,
    create_visualization py_float code_points buy_top_raw sell_top_raw date n_items
    = Ok fig
    /\ filter is_bar (artists fig)
       = List.concat
           (map (row_bars buy_top_raw sell_top_raw
                   (py_min (Z.of_nat (List.length buy_top_raw)) n_items)
                   (py_min (Z.of_nat (List.length sell_top_raw)) n_items)
                   (volume_scale buy_top_raw sell_top_raw n_items))
                (map Z.of_nat
                   (seq 0 (Z.to_nat
                             (py_max (py_min (Z.of_nat (List.length buy_top_raw)) n_items)
                                     (py_min (Z.of_nat (List.length sell_top_raw)) n_items)))))).
Proof.
  intros NE.
  set (num_buy := py_min (Z.of_nat (List.length buy_top_raw)) n_items).
  set (num_sell := py_min (Z.of_nat (List.length sell_top_raw)) n_items).
  set (range := map Z.of_nat (seq 0 (Z.to_nat (py_max num_buy num_sell)))).
  destruct (draw_rows_shape buy_top_raw sell_top_raw num_buy num_sell
              (volume_scale buy_top_raw sell_top_raw n_items) range)
    as [drawn [M F]].
  { unfold range. apply Forall_forall. intros i Hi.
    apply in_map_iff in Hi as [k [<- _]]. lia. }
  { apply py_min_le_l. }
  { apply py_min_le_l. }
  assert (E : exists arts,
    create_visualization py_float code_points buy_top_raw sell_top_raw date n_items
    = Ok arts /\ exists h s, artists arts = h ++ List.concat drawn ++ [s]
                             /\ filter is_bar h = [] /\ is_bar s = false).
  { unfold create_visualization.
    destruct buy_top_raw as [|b0 bs], sell_top_raw as [|s0 ss];
      [destruct NE; contradiction| | |];
      cbv zeta; rewrite scale_eq; fold num_buy num_sell range; rewrite M; cbn [bind];
      (eexists; split; [reflexivity|]); cbn [artists];
      (eexists; eexists; split; [reflexivity|]); split; reflexivity. }
  destruct E as [fig [-> [h [s [A [Fh Fs]]]]]].
  exists fig. split; [reflexivity|].
  rewrite A, !filter_app, Fh, F. cbn [filter]. rewrite Fs. now rewrite app_nil_r.
Qed.

End Chart.

Lemma fold_max_spec (l : list Q) (m : Q) :
  let r := fold_left (fun m y => if Qle_bool y m then m else y) l m in
  (m <= r)%Q /\ (forall x, In x l -> (x <= r)%Q) /\ In r (m :: l).
Proof.
  revert m. induction l as [|y l IH]; intros m; simpl.
  - split; [apply Qle_refl|]. split; [tauto|auto].
  - destruct (Qle_bool y m) eqn:C.
    + apply Qle_bool_iff in C. destruct (IH m) as [A [B I]].
      split; [exact A|]. split.
      * intros x [<-|H]; [now apply Qle_trans with m|auto].
      * destruct I as [I|I]; auto.
    + assert (L : (m <= y)%Q).
      { apply Qlt_le_weak, Qnot_le_lt. intros N. apply Qle_bool_iff in N. congruence. }
      destruct (IH y) as [A [B I]].
      split; [now apply Qle_trans with y|]. split.
      * intros x [<-|H]; auto.
      * destruct I as [I|I]; auto.
Qed.

Lemma list_max_ge (l : list Q) (x : Q) : In x l -> (x <= list_max l)%Q.
Proof.
  destruct l as [|m l]; [contradiction|]. simpl.
  destruct (fold_max_spec l m) as [A [B _]]. intros [<-|H]; auto.
Qed.

Lemma list_max_In (l : list Q) : l <> [] -> In (list_max l) l.
Proof.
  destruct l as [|m l]; [contradiction|]. intros _.
  now destruct (fold_max_spec l m) as [_ [_ I]].
Qed.


Lemma shown_rows_In (view : list (RankedRow Z)) (n_items : Z) (row : RankedRow Z) :
  In row (shown_rows view n_items) ->
  exists i, 0 <= i /\ i < py_min (Z.of_nat (List.length view)) n_items
            /\ nth_error view (Z.to_nat i) = Some row.
Proof.
  unfold shown_rows. cbv zeta.
  set (num := py_min (Z.of_nat (List.length view)) n_items) in *.
  destruct (Z.ltb_spec 0 num); [|contradiction].
  unfold py_head. destruct (Z.leb_spec 0 num); [|lia].
  intros Hin. apply In_nth_error in Hin as [k N].
  rewrite nth_error_firstn in N.
  destruct (Nat.ltb_spec k (Z.to_nat num)); [|discriminate].
  exists (Z.of_nat k). rewrite Nat2Z.id. repeat split; [lia|lia|exact N].
Qed.

Lemma volume_scale_pos (buy_top_raw sell_top_raw : list (RankedRow Z)) (n_items : Z) :
  Qle_bool (volume_scale buy_top_raw sell_top_raw n_items) 0 = false.
Proof.
  unfold volume_scale. destruct (shown_volumes _ _ _); [reflexivity|].
  destruct (Qle_bool (list_max _) 0) eqn:C; [reflexivity|exact C].
Qed.






Lemma py_max_spec (a b : Z) : py_max a b = Z.max a b.
Proof. unfold py_max. destruct (Z.ltb_spec a b); lia. Qed.

Lemma sum_indicator (k : Z) (m : nat) :
  0 <= k ->
  list_sum (map (fun i => if Z.of_nat i <? k then 1%nat else 0%nat) (seq 0 m))
  = Z.to_nat (Z.min k (Z.of_nat m)).
Proof.
  intros Hk. induction m as [|m IH]; [simpl; lia|].
  rewrite seq_S, map_app, list_sum_app, IH, Nat.add_0_l.
  unfold list_sum. cbn [map fold_right].
  destruct (Z.ltb_spec (Z.of_nat m) k); lia.
Qed.

Lemma row_bars_length (buy_top_raw sell_top_raw : list (RankedRow Z))
  (num_buy num_sell : Z) (scale : Q) (i : nat) :
  num_buy <= Z.of_nat (List.length buy_top_raw) ->
  num_sell <= Z.of_nat (List.length sell_top_raw) ->
  List.length (row_bars buy_top_raw sell_top_raw num_buy num_sell scale (Z.of_nat i))
  = ((if (Z.of_nat i <? num_buy)%Z then 1 else 0)
     + (if (Z.of_nat i <? num_sell)%Z then 1 else 0))%nat.
Proof.
  intros Hb Hs. unfold row_bars. cbv zeta. rewrite length_app, Nat2Z.id. f_equal.
  - destruct (Z.ltb_spec (Z.of_nat i) num_buy); [|reflexivity].
    destruct (nth_error buy_top_raw i) eqn:N; [reflexivity|].
    apply nth_error_None in N. lia.
  - destruct (Z.ltb_spec (Z.of_nat i) num_sell); [|reflexivity].
    destruct (nth_error sell_top_raw i) eqn:N; [reflexivity|].
    apply nth_error_None in N. lia.
Qed.

Lemma list_sum_add {A : Type} (f g : A -> nat) (l : list A) :
  list_sum (map (fun a => (f a + g a)%nat) l)
  = (list_sum (map f l) + list_sum (map g l))%nat.
Proof. induction l as [|a l IH]; simpl; lia. Qed.

(** X25. With n_items >= 0 the figure has one bar for each row shown: min(n,
    rows of the buy view) bars on the buy side and min(n, rows of the sell
    view) on the sell side. *)
Theorem chart_has_one_bar_per_shown_row
  (py_float : PyStr -> option Q) (code_points : string -> PyStr)
  (buy_top_raw sell_top_raw : list (RankedRow Z)) (date : PyStr) (n_items : Z)
  (fig : Figure) :
  0 <= n_items ->
  create_visualization py_float code_points buy_top_raw sell_top_raw date n_items
  = Ok fig ->
  List.length (filter is_bar (artists fig))
  = (Z.to_nat (Z.min (Z.of_nat (List.length buy_top_raw)) n_items)
     + Z.to_nat (Z.min (Z.of_nat (List.length sell_top_raw)) n_items))%nat.
Proof.
  intros Hn E.
  assert (NE : buy_top_raw <> [] \/ sell_top_raw <> []).
  { destruct buy_top_raw; [|left; discriminate].
    destruct sell_top_raw; [discriminate|right; discriminate]. }
  destruct (create_visualization_bars py_float code_points buy_top_raw sell_top_raw
              date n_items NE) as [fig' [E' F]].
  rewrite E in E'. injection E' as <-. rewrite F.
  rewrite length_concat, !map_map.
  set (nb := py_min (Z.of_nat (List.length buy_top_raw)) n_items).
  set (ns := py_min (Z.of_nat (List.length sell_top_raw)) n_items).
  rewrite (map_ext _ (fun i => ((if (Z.of_nat i <? nb)%Z then 1 else 0)
                                + (if (Z.of_nat i <? ns)%Z then 1 else 0))%nat))
    by (intros i; apply row_bars_length; apply py_min_le_l).
  rewrite list_sum_add.
  assert (Bn : 0 <= nb) by (unfold nb; rewrite py_min_spec; lia).
  assert (Sn : 0 <= ns) by (unfold ns; rewrite py_min_spec; lia).
  rewrite !sum_indicator by assumption.
  rewrite py_max_spec. unfold nb, ns in *. rewrite !py_min_spec in *. lia.
Qed.

Lemma chart_has_one_bar_per_shown_row_witness :
  0 <= 20 /\
  create_visualization float_of_int_text pystr spec_buy_view spec_sell_view
                       (pystr "2024-01-01") 20 = Ok spec_fig /\
  List.length (filter is_bar (artists spec_fig))
  = (Z.to_nat (Z.min (Z.of_nat (List.length spec_buy_view)) 20)
     + Z.to_nat (Z.min (Z.of_nat (List.length spec_sell_view)) 20))%nat.
Proof.
  split; [lia|]. split; [vm_compute; reflexivity|].
  apply (chart_has_one_bar_per_shown_row float_of_int_text pystr spec_buy_view
           spec_sell_view (pystr "2024-01-01") 20 spec_fig).
  - lia.
  - vm_compute; reflexivity.
Defined.

Lemma row_bars_of_shown_row (buy_top_raw sell_top_raw : list (RankedRow Z))
  (n_items : Z) (row : RankedRow Z) :
  In row (shown_rows buy_top_raw n_items) \/ In row (shown_rows sell_top_raw n_items) ->
  exists i y left_ color,
    0 <= i
    /\ i < py_max (py_min (Z.of_nat (List.length buy_top_raw)) n_items)
                  (py_min (Z.of_nat (List.length sell_top_raw)) n_items)
    /\ In (Barh y (bar_width_of (volume_scale buy_top_raw sell_top_raw n_items)
                                (v_key row)) left_ 0.7 color)
          (row_bars buy_top_raw sell_top_raw
             (py_min (Z.of_nat (List.length buy_top_raw)) n_items)
             (py_min (Z.of_nat (List.length sell_top_raw)) n_items)
             (volume_scale buy_top_raw sell_top_raw n_items) i).
Proof.
  intros [H|H]; apply shown_rows_In in H as [i [Hi [L N]]];
    exists i; do 3 eexists; (split; [exact Hi|]);
    (split; [rewrite py_max_spec; lia|]);
    unfold row_bars; cbv zeta; apply in_or_app.
  - left. apply Z.ltb_lt in L. rewrite L, N. left. reflexivity.
  - right. apply Z.ltb_lt in L. rewrite L, N. left. reflexivity.
Qed.

(** X26. When a shown row has a non-zero net volume, the figure has a bar of
    the full width 0.40: the bars are scaled by the largest volume shown. *)
Theorem chart_longest_bar_is_full_width
  (py_float : PyStr -> option Q) (code_points : string -> PyStr)
  (buy_top_raw sell_top_raw : list (RankedRow Z)) (date : PyStr) (n_items : Z)
  (fig : Figure) (row : RankedRow Z) :
  create_visualization py_float code_points buy_top_raw sell_top_raw date n_items
  = Ok fig ->
  In row (shown_rows buy_top_raw n_items) \/ In row (shown_rows sell_top_raw n_items) ->
  ~ (v_key row == 0)%Q ->
  exists y width left_ height color,
    In (Barh y width left_ height color) (artists fig) /\ (width == 2 # 5)%Q.
Proof.
  intros E Hrow Hv.
  assert (NE : buy_top_raw <> [] \/ sell_top_raw <> []).
  { destruct buy_top_raw; [|left; discriminate].
    destruct sell_top_raw; [discriminate|right; discriminate]. }
  destruct (create_visualization_bars py_float code_points buy_top_raw sell_top_raw
              date n_items NE) as [fig' [E' F]].
  rewrite E in E'. injection E' as <-.
  set (all := shown_volumes buy_top_raw sell_top_raw n_items).
  assert (I : In (Qabs (v_key row)) all).
  { unfold all, shown_volumes. apply in_or_app.
    destruct Hrow as [H|H]; [left|right]; now apply in_map, in_map. }
  assert (P : (0 < Qabs (v_key row))%Q).
  { destruct (Qlt_le_dec 0 (Qabs (v_key row))) as [G|G]; [exact G|].
    exfalso. apply Hv. destruct (Qlt_le_dec (v_key row) 0) as [N|N].
    - rewrite (Qabs_neg (v_key row)) in G by lra. lra.
    - rewrite (Qabs_pos (v_key row) N) in G. lra. }
  assert (M : (0 < list_max all)%Q)
    by (eapply Qlt_le_trans; [exact P|now apply list_max_ge]).
  assert (Ne : all <> []) by (intros N; rewrite N in I; contradiction).
  pose proof (list_max_In all Ne) as Im.
  assert (S : volume_scale buy_top_raw sell_top_raw n_items = list_max all).
  { unfold volume_scale. fold all. destruct all as [|a0 al]; [contradiction|].
    destruct (Qle_bool (list_max (a0 :: al)) 0) eqn:C; [|reflexivity].
    apply Qle_bool_iff in C. lra. }
  unfold all, shown_volumes in Im. apply in_app_or in Im.
  assert (R : exists row', (In row' (shown_rows buy_top_raw n_items)
                            \/ In row' (shown_rows sell_top_raw n_items))
                           /\ Qabs (v_key row') = list_max all).
  { destruct Im as [H|H]; apply in_map_iff in H as [v [Ev H]];
      apply in_map_iff in H as [row' [<- H]]; exists row'; auto. }
  destruct R as [row' [Hr' Em]].
  destruct (row_bars_of_shown_row buy_top_raw sell_top_raw n_items row' Hr')
    as [i [y [l [c [Hi [Li Hb]]]]]].
  exists y, (bar_width_of (volume_scale buy_top_raw sell_top_raw n_items) (v_key row')),
    l, 0.7%Q, c.
  split.
  - assert (B : In (Barh y (bar_width_of (volume_scale buy_top_raw sell_top_raw n_items)
                                         (v_key row')) l 0.7 c)
                   (filter is_bar (artists fig))).
    { rewrite F. apply in_concat. eexists. split; [|exact Hb].
      apply in_map_iff. exists i. split; [reflexivity|].
      apply in_map_iff. exists (Z.to_nat i). split; [lia|].
      apply in_seq. lia. }
    now apply filter_In in B as [B _].
  - unfold bar_width_of. rewrite volume_scale_pos, S, Em. field. lra.
Qed.

Lemma chart_longest_bar_is_full_width_witness :
  create_visualization float_of_int_text pystr spec_buy_view spec_sell_view
                       (pystr "2024-01-01") 20 = Ok spec_fig /\
  (In (nth 0 spec_buy_view (mkRanked 0 "" 0 0 0 0 0 0%Z)) (shown_rows spec_buy_view 20)
   \/ In (nth 0 spec_buy_view (mkRanked 0 "" 0 0 0 0 0 0%Z))
         (shown_rows spec_sell_view 20)) /\
  ~ (v_key (nth 0 spec_buy_view (mkRanked 0 "" 0 0 0 0 0 0%Z)) == 0)%Q /\
  exists y width left_ height color,
    In (Barh y width left_ height color) (artists spec_fig) /\ (width == 2 # 5)%Q.
Proof.
  assert (E : create_visualization float_of_int_text pystr spec_buy_view
                spec_sell_view (pystr "2024-01-01") 20 = Ok spec_fig)
    by (vm_compute; reflexivity).
  assert (R : In (nth 0 spec_buy_view (mkRanked 0 "" 0 0 0 0 0 0%Z))
                 (shown_rows spec_buy_view 20)
              \/ In (nth 0 spec_buy_view (mkRanked 0 "" 0 0 0 0 0 0%Z))
                    (shown_rows spec_sell_view 20))
    by (left; vm_compute; left; reflexivity).
  assert (V : ~ (v_key (nth 0 spec_buy_view (mkRanked 0 "" 0 0 0 0 0 0%Z)) == 0)%Q)
    by (intros H; vm_compute in H; discriminate).
  split; [exact E|]. split; [exact R|]. split; [exact V|].
  exact (chart_longest_bar_is_full_width float_of_int_text pystr spec_buy_view
           spec_sell_view (pystr "2024-01-01") 20 spec_fig _ E R V).
Defined.

(** ** The filters of the application *)

Lemma fold_min_spec (l : list Q) (m : Q) :
  let r := fold_left (fun m y => if Qle_bool m y then m else y) l m in
  (r <= m)%Q /\ (forall x, In x l -> (r <= x)%Q).
Proof.
  revert m. induction l as [|y l IH]; intros m; simpl.
  - split; [apply Qle_refl|tauto].
  - destruct (Qle_bool m y) eqn:C.
    + apply Qle_bool_iff in C. destruct (IH m) as [A B].
      split; [exact A|]. intros x [<-|H]; [now apply Qle_trans with m|auto].
    + assert (L : (y <= m)%Q).
      { apply Qlt_le_weak, Qnot_le_lt. intros N. apply Qle_bool_iff in N. congruence. }
      destruct (IH y) as [A B].
      split; [now apply Qle_trans with y|]. intros x [<-|H]; auto.
Qed.

Lemma series_min_le (values : list Q) (lo x : Q) :
  series_min values = Some lo -> In x values -> (lo <= x)%Q.
Proof.
  destruct values as [|v l]; [discriminate|]. intros [= <-].
  destruct (fold_min_spec l v) as [A B]. intros [<-|H]; auto.
Qed.

Lemma series_max_ge (values : list Q) (hi x : Q) :
  series_max values = Some hi -> In x values -> (x <= hi)%Q.
Proof.
  destruct values as [|v l]; [discriminate|]. intros [= <-].
  destruct (fold_max_spec l v) as [A [B _]]. intros [<-|H]; auto.
Qed.

Lemma filter_all {A : Type} (f : A -> bool) (l : list A) :
  (forall a, In a l -> f a = true) -> filter f l = l.
Proof.
  induction l as [|a l IH]; intros H; simpl; [reflexivity|].
  rewrite (H a (or_introl eq_refl)). f_equal. apply IH. intros; apply H; now right.
Qed.

(** X27. With the bounds the application proposes (the lowest and the highest
    price of the table) and no broker selected, both filtered tables show
    every row. *)
Theorem default_filters_show_everything
  (df_raw : DataFrame) (df : list AggRow) (lo hi lo' hi' : Q) :
  series_min (map price df_raw) = Some lo ->
  series_max (map price df_raw) = Some hi ->
  series_min (map r_buy_price df) = Some lo' ->
  series_max (map r_buy_price df) = Some hi' ->
  filter_raw df_raw lo hi [] = df_raw /\ filter_agg df lo' hi' [] = df.
Proof.
  intros A B C D. unfold filter_raw, filter_agg. split; apply filter_all.
  - intros r Hr. apply andb_true_iff. rewrite !Qle_bool_iff. split.
    + apply (series_min_le _ _ _ A). now apply in_map.
    + apply (series_max_ge _ _ _ B). now apply in_map.
  - intros r Hr. apply andb_true_iff. rewrite !Qle_bool_iff. split.
    + apply (series_min_le _ _ _ C). now apply in_map.
    + apply (series_max_ge _ _ _ D). now apply in_map.
Qed.

Lemma default_filters_show_everything_witness :
  series_min (map price spec_example) = Some 9%Q /\
  series_max (map price spec_example) = Some 12%Q /\
  series_min (map r_buy_price (rows spec_frame)) = Some (90 # 10)%Q /\
  series_max (map r_buy_price (rows spec_frame)) = Some (100 # 10)%Q /\
  filter_raw spec_example 9 12 [] = spec_example /\
  filter_agg (rows spec_frame) (90 # 10) (100 # 10) [] = rows spec_frame.
Proof.
  split; [reflexivity|]. split; [reflexivity|].
  split; [reflexivity|]. split; [reflexivity|].
  apply (default_filters_show_everything spec_example (rows spec_frame)
           9 12 (90 # 10) (100 # 10)); reflexivity.
Defined.

Lemma unique_NoDup_id (l : list string) : NoDup l -> unique l = l.
Proof.
  induction 1 as [|x l N _ IH]; simpl; [reflexivity|]. rewrite IH. f_equal.
  apply filter_all. intros y Hy. apply negb_true_iff, String.eqb_neq.
  intros ->. contradiction.
Qed.

(** X28. The two broker selection boxes of the application, the one of the
    record set and the one of the aggregate table, offer the same brokers
    in the same order. *)
Theorem broker_options_agree (df_raw : DataFrame) (frame : AggFrame) :
  df2calculate df_raw = Ok frame ->
  all_brokers_agg (rows frame) = all_brokers_raw df_raw.
Proof.
  intros H. unfold all_brokers_agg, all_brokers_raw.
  rewrite (frame_brokers df_raw frame H).
  apply unique_NoDup_id, unique_NoDup.
Qed.

Lemma broker_options_agree_witness :
  df2calculate spec_example = Ok spec_frame /\
  all_brokers_agg (rows spec_frame) = all_brokers_raw spec_example.
Proof.
  split; [vm_compute; reflexivity|].
  apply (broker_options_agree spec_example spec_frame). vm_compute; reflexivity.
Defined.
